(** * Aavaaz clinical session client: the audio session protocol

    A shallow embedding of the React front end of the repository:
    [App.js] (the session host that stores the transcripts, the insight
    report, the recording flag and the connection status) and the
    [AudioStreamer] component (socket, microphone, recorder, outbound
    frames).

    React state setters are modelled as assignments to the corresponding
    field, refs as fields holding an optional handle, and every callback the
    browser may invoke (socket events, the two awaits of [startRecording],
    recorder and file-reader events, the click on the record button) as one
    event of a step function. The async function [startRecording] is cut at
    its awaits; each call is tracked with the socket it created.

    Left out: what [console.log] and [console.error] print ([alert] is
    counted), the exceptions that [new WebSocket], [new MediaRecorder] and
    [recorder.start] raise on a malformed URL or an unsupported format, and
    the tasks that follow the unmounting of the component (its cleanup is
    modelled as a function). *)

From Stdlib Require Import ZArith String Ascii List Bool Lia.
From Stdlib.Strings Require Import Byte.
From stdpp Require Import base list.
Import ListNotations.
Local Open Scope string_scope.
Local Open Scope list_scope.

(** ** JavaScript values and completions *)

(** The result of [JSON.parse]. An object keeps its fields, one per key, in
    an association list; numbers are never inspected by the client. *)
Unset Elimination Schemes.
Inductive json : Type :=
| JNull
| JBool (b : bool)
| JNum (n : Z)
| JStr (s : string)
| JArr (items : list json)
| JObj (fields : list (string * json)).
Set Elimination Schemes.

(** A JavaScript value that may be [undefined] ([None]). *)
Definition value : Type := option json.

Inductive exn : Type := TypeError | SyntaxError.

(** Normal or abrupt completion of a JavaScript function body. *)
Inductive completion (A : Type) : Type :=
| Normal (a : A)
| Throw (e : exn).
Arguments Normal {A} a.
Arguments Throw {A} e.

Definition bind {A B} (c : completion A) (k : A -> completion B) : completion B :=
  match c with
  | Normal a => k a
  | Throw e => Throw e
  end.

Notation "'let!' x ':=' c 'in' k" := (bind c (fun x => k))
  (at level 10, x name, c at level 100, k at level 200).

Fixpoint assoc (key : string) (fields : list (string * json)) : value :=
  match fields with
  | [] => None
  | (k, v) :: rest => if String.eqb k key then Some v else assoc key rest
  end.

(** [data.key] for the keys the client reads ([type], [text], [report],
    [message]): a [TypeError] on [null], the field of an object,
    [undefined] on every other value (no prototype carries these keys). *)
Definition get (data : json) (key : string) : completion value :=
  match data with
  | JNull => Throw TypeError
  | JObj fields => Normal (assoc key fields)
  | _ => Normal None
  end.

(** [v === 'literal'] *)
Definition strict_eq_str (v : value) (lit : string) : bool :=
  match v with
  | Some (JStr s) => String.eqb s lit
  | _ => false
  end.

(** ** App.js: the session host *)

Module App.

Record state : Type := mk {
  transcript : value;
  partialTranscript : value;
  insightReport : value;
  isRecording : bool;
  connectionStatus : string
}.

(** The [useState] initial values. *)
Definition init : state :=
  {| transcript := Some (JStr "");
     partialTranscript := Some (JStr "");
     insightReport := Some JNull;
     isRecording := false;
     connectionStatus := "disconnected" |}.

Definition setTranscript (v : value) (s : state) : state :=
  mk v (partialTranscript s) (insightReport s) (isRecording s) (connectionStatus s).
Definition setPartialTranscript (v : value) (s : state) : state :=
  mk (transcript s) v (insightReport s) (isRecording s) (connectionStatus s).
Definition setInsightReport (v : value) (s : state) : state :=
  mk (transcript s) (partialTranscript s) v (isRecording s) (connectionStatus s).
Definition setIsRecording (b : bool) (s : state) : state :=
  mk (transcript s) (partialTranscript s) (insightReport s) b (connectionStatus s).
Definition setConnectionStatus (c : string) (s : state) : state :=
  mk (transcript s) (partialTranscript s) (insightReport s) (isRecording s) c.

Definition handleTranscriptUpdate (data : json) (s : state) : completion state :=
  let! ty := get data "type" in
  if strict_eq_str ty "partial_transcript" then
    let! text := get data "text" in
    Normal (setPartialTranscript text s)
  else if strict_eq_str ty "final_transcript" then
    let! text := get data "text" in
    Normal (setPartialTranscript (Some (JStr "")) (setTranscript text s))
  else if strict_eq_str ty "insight_report" then
    let! report := get data "report" in
    Normal (setIsRecording false (setInsightReport report s))
  else if strict_eq_str ty "status_update" then
    let! message := get data "message" in
    Normal s
  else if strict_eq_str ty "error" then
    let! message := get data "message" in
    Normal (setIsRecording false s)
  else
    Normal s.

Definition handleRecordingStateChange (recording : bool) (s : state) : state :=
  setIsRecording recording s.

Definition handleConnectionStatusChange (status : string) (s : state) : state :=
  setConnectionStatus status s.

End App.

(** ** Browser objects *)

Inductive ready_state : Type := CONNECTING | OPEN | CLOSING | CLOSED.

Inductive settle : Type := Fulfilled | Rejected.

(** Where one call of the async function [startRecording] stands: suspended
    at [await connectWebSocket()], suspended at [await getUserMedia(...)],
    or returned, with the promise it gave its caller settled. *)
Inductive async_state : Type :=
| AwaitConnect
| AwaitUserMedia
| Settled (r : settle).

(** A socket created by [connectWebSocket], with the [startRecording] call
    that created it and awaits the promise wrapped around it. *)
Record WebSocket : Type := mkWebSocket {
  readyState : ready_state;
  caller : async_state
}.

Inductive recorder_state : Type := inactive | recording | paused.

(** A recorder created by [startRecording]: [rec_ws] is the socket [ws]
    its [ondataavailable] closure captured, [tracks_live] tells whether the
    tracks of its microphone stream are still running. *)
Record MediaRecorder : Type := mkMediaRecorder {
  rec_state : recorder_state;
  rec_ws : nat;
  tracks_live : bool
}.

Definition Blob : Type := list byte.
Definition size (b : Blob) : nat := length b.

(** [s.split(sep)] for a one-character separator. *)
Fixpoint split (sep : ascii) (s : string) : list string :=
  match s with
  | EmptyString => [EmptyString]
  | String c rest =>
      if Ascii.eqb c sep then EmptyString :: split sep rest
      else match split sep rest with
           | [] => [String c EmptyString]
           | piece :: pieces => String c piece :: pieces
           end
  end.

(** The argument of [JSON.stringify] for the two outbound frames; a
    property whose value is [undefined] is left out, as [stringify] does. *)
Definition audio_frame (base64Audio : option string) : json :=
  JObj (("type", JStr "audio") ::
        match base64Audio with
        | Some d => [("data", JStr d)]
        | None => []
        end).

Definition stop_frame : json := JObj [("type", JStr "stop")].

(** ** AudioStreamer: the component *)

Module AudioStreamer.

(** The [useState] and [useRef] cells. A ref holds the index of a socket
    or recorder of the page, or [None] for [null]. *)
Record state : Type := mk {
  isRecording : bool;
  isConnecting : bool;
  audioChunksRef : list Blob;
  websocketRef : option nat;
  mediaRecorderRef : option nat
}.

Definition init : state := mk false false [] None None.

(** Everything the callbacks can read or write: the host, the component,
    the sockets and recorders created so far, the file readers that have
    not finished (each with the socket [ws] of its closure), the frames
    passed to [ws.send] in order (with the socket they were sent on), and
    the number of [alert] dialogs shown. *)
Record page : Type := mkPage {
  host : App.state;
  self : state;
  sockets : list WebSocket;
  recorders : list MediaRecorder;
  readers : list nat;
  sent : list (nat * json);
  alerts : nat
}.

Definition start_page : page := mkPage App.init init [] [] [] [] 0.

Definition with_host (f : App.state -> App.state) (p : page) : page :=
  mkPage (f (host p)) (self p) (sockets p) (recorders p) (readers p) (sent p) (alerts p).
Definition with_self (f : state -> state) (p : page) : page :=
  mkPage (host p) (f (self p)) (sockets p) (recorders p) (readers p) (sent p) (alerts p).
Definition with_sockets (f : list WebSocket -> list WebSocket) (p : page) : page :=
  mkPage (host p) (self p) (f (sockets p)) (recorders p) (readers p) (sent p) (alerts p).
Definition with_recorders (f : list MediaRecorder -> list MediaRecorder) (p : page) : page :=
  mkPage (host p) (self p) (sockets p) (f (recorders p)) (readers p) (sent p) (alerts p).
Definition with_readers (f : list nat -> list nat) (p : page) : page :=
  mkPage (host p) (self p) (sockets p) (recorders p) (f (readers p)) (sent p) (alerts p).
Definition with_sent (f : list (nat * json) -> list (nat * json)) (p : page) : page :=
  mkPage (host p) (self p) (sockets p) (recorders p) (readers p) (f (sent p)) (alerts p).
Definition alert (p : page) : page :=
  mkPage (host p) (self p) (sockets p) (recorders p) (readers p) (sent p) (S (alerts p)).

(** *** Props, bound by [App] to its handlers *)

Definition onTranscriptUpdate (data : json) (p : page) : completion page :=
  let! h := App.handleTranscriptUpdate data (host p) in
  Normal (with_host (fun _ => h) p).
Definition onRecordingStateChange (recording : bool) : page -> page :=
  with_host (App.handleRecordingStateChange recording).
Definition onConnectionStatusChange (status : string) : page -> page :=
  with_host (App.handleConnectionStatusChange status).

(** *** State setters and ref assignments *)

Definition setIsRecording (b : bool) : page -> page :=
  with_self (fun s => mk b (isConnecting s) (audioChunksRef s) (websocketRef s) (mediaRecorderRef s)).
Definition setIsConnecting (b : bool) : page -> page :=
  with_self (fun s => mk (isRecording s) b (audioChunksRef s) (websocketRef s) (mediaRecorderRef s)).
Definition set_audioChunksRef (chunks : list Blob) : page -> page :=
  with_self (fun s => mk (isRecording s) (isConnecting s) chunks (websocketRef s) (mediaRecorderRef s)).
Definition set_websocketRef (ws : option nat) : page -> page :=
  with_self (fun s => mk (isRecording s) (isConnecting s) (audioChunksRef s) ws (mediaRecorderRef s)).
Definition set_mediaRecorderRef (recorder : option nat) : page -> page :=
  with_self (fun s => mk (isRecording s) (isConnecting s) (audioChunksRef s) (websocketRef s) recorder).

(** *** Operations on the browser objects *)

Definition ready (ws : nat) (p : page) : option ready_state :=
  readyState <$> sockets p !! ws.
Definition caller_of (ws : nat) (p : page) : option async_state :=
  caller <$> sockets p !! ws.
(** [ws.readyState === WebSocket.OPEN] *)
Definition is_open (ws : nat) (p : page) : bool :=
  match ready ws p with
  | Some OPEN => true
  | _ => false
  end.
Definition set_readyState (ws : nat) (rs : ready_state) : page -> page :=
  with_sockets (alter (fun s => mkWebSocket rs (caller s)) ws).
Definition set_caller (ws : nat) (a : async_state) : page -> page :=
  with_sockets (alter (fun s => mkWebSocket (readyState s) a) ws).
Definition set_rec_state (recorder : nat) (st : recorder_state) : page -> page :=
  with_recorders (alter (fun r => mkMediaRecorder st (rec_ws r) (tracks_live r)) recorder).
(** [ws.send(JSON.stringify(frame))] on an open socket *)
Definition send (ws : nat) (frame : json) : page -> page :=
  with_sent (fun frames => frames ++ [(ws, frame)]).

(** *** connectWebSocket and its socket handlers *)

(** The promise executor: it runs to its end inside the call. *)
Definition connectWebSocket (p : page) : page :=
  let p := setIsConnecting true p in
  let p := onConnectionStatusChange "connecting" p in
  let ws := length (sockets p) in
  let p := with_sockets (fun l => l ++ [mkWebSocket CONNECTING AwaitConnect]) p in
  set_websocketRef (Some ws) p.

(** *** startRecording, cut at its two awaits *)

(** From the call to [await connectWebSocket()]. *)
Definition startRecording (p : page) : page := connectWebSocket p.

(** From the socket promise resolving to [await getUserMedia(...)]. *)
Definition startRecording_connected (ws : nat) (p : page) : page :=
  set_caller ws AwaitUserMedia p.

(** From the stream promise resolving to the end of the [try] block. *)
Definition startRecording_stream (ws : nat) (p : page) : page :=
  let recorder := length (recorders p) in
  let p := with_recorders (fun l => l ++ [mkMediaRecorder inactive ws true]) p in
  let p := set_audioChunksRef [] p in
  let p := set_rec_state recorder recording p in
  let p := set_mediaRecorderRef (Some recorder) p in
  let p := setIsRecording true p in
  let p := onRecordingStateChange true p in
  set_caller ws (Settled Fulfilled) p.

(** The [catch] block, entered when either awaited promise rejects. *)
Definition startRecording_catch (ws : nat) (p : page) : page :=
  let p := setIsConnecting false p in
  let p := onConnectionStatusChange "disconnected" p in
  let p := alert p in
  set_caller ws (Settled Fulfilled) p.

(** [resolve(ws)] and [reject(error)]: only the first settles the promise. *)
Definition resolve (ws : nat) (p : page) : page :=
  match caller_of ws p with
  | Some AwaitConnect => startRecording_connected ws p
  | _ => p
  end.
Definition reject (ws : nat) (p : page) : page :=
  match caller_of ws p with
  | Some AwaitConnect => startRecording_catch ws p
  | _ => p
  end.

Definition ws_onopen (ws : nat) (p : page) : page :=
  let p := setIsConnecting false p in
  let p := onConnectionStatusChange "connected" p in
  resolve ws p.

(** [frame] is the outcome of [JSON.parse(event.data)]: [None] when the
    text is not JSON. *)
Definition JSON_parse (frame : option json) : completion json :=
  match frame with
  | Some data => Normal data
  | None => Throw SyntaxError
  end.

Definition ws_onmessage (frame : option json) (p : page) : completion page :=
  match (let! data := JSON_parse frame in onTranscriptUpdate data p) with
  | Normal p' => Normal p'
  | Throw _ => Normal p
  end.

Definition ws_onclose (p : page) : page :=
  let p := setIsConnecting false p in
  let p := onConnectionStatusChange "disconnected" p in
  set_websocketRef None p.

Definition ws_onerror (ws : nat) (p : page) : page :=
  let p := setIsConnecting false p in
  let p := onConnectionStatusChange "disconnected" p in
  reject ws p.

(** *** Recorder and reader handlers *)

Definition recorder_ondataavailable (recorder : nat) (data : Blob) (p : page) : page :=
  match recorders p !! recorder with
  | Some r =>
      if (0 <? size data)%nat then
        let p := set_audioChunksRef (audioChunksRef (self p) ++ [data]) p in
        with_readers (fun l => l ++ [rec_ws r]) p
      else p
  | None => p
  end.

(** [result] is [reader.result]: the data URL, or [None] for the [null]
    of a failed read, on which [split] raises. *)
Definition reader_onloadend (ws : nat) (result : option string) (p : page) : completion page :=
  match result with
  | None => Throw TypeError
  | Some url =>
      let base64Audio := split ","%char url !! 1 in
      if is_open ws p then Normal (send ws (audio_frame base64Audio) p)
      else Normal p
  end.

Definition recorder_onstop (recorder : nat) : page -> page :=
  with_recorders (alter (fun r => mkMediaRecorder (rec_state r) (rec_ws r) false) recorder).

(** *** stopRecording and the button *)

(** The first statement of [stopRecording]: [stop()] on the recorder in
    [mediaRecorderRef], when there is one and it is not inactive. *)
Definition stop_capture (p : page) : page :=
  match mediaRecorderRef (self p) with
  | Some recorder =>
      match rec_state <$> recorders p !! recorder with
      | Some inactive | None => p
      | Some _ => set_rec_state recorder inactive p
      end
  | None => p
  end.

(** The second statement: the stop frame, when [websocketRef] holds a
    socket and that socket is open. *)
Definition send_stop (p : page) : page :=
  match websocketRef (self p) with
  | Some ws => if is_open ws p then send ws stop_frame p else p
  | None => p
  end.

Definition stopRecording (p : page) : page :=
  let p := stop_capture p in
  let p := send_stop p in
  let p := setIsRecording false p in
  onRecordingStateChange false p.

Definition handleToggleRecording (p : page) : page :=
  if isRecording (self p) then stopRecording p else startRecording p.

(** *** The cleanup of [useEffect], run when the component unmounts *)

(** [ws.close()]: a socket that is connecting or open starts closing. *)
Definition ws_close (ws : nat) (p : page) : page :=
  match ready ws p with
  | Some CONNECTING | Some OPEN => set_readyState ws CLOSING p
  | _ => p
  end.

Definition cleanup (p : page) : page :=
  let p :=
    match websocketRef (self p) with
    | Some ws => ws_close ws p
    | None => p
    end in
  stop_capture p.

End AudioStreamer.

Import AudioStreamer.

(** ** The event loop *)

(** One task of the browser. Sockets, recorders and readers are named by
    their index in the page. *)
Inductive event : Type :=
| Click
| SocketOpened (ws : nat)
| SocketMessage (ws : nat) (frame : option json)
| SocketFailed (ws : nat)
| SocketClosed (ws : nat)
| StreamGranted (ws : nat)
| StreamDenied (ws : nat)
| DataAvailable (recorder : nat) (data : Blob)
| RecorderStopped (recorder : nat)
| LoadEnd (reader : nat) (result : option string).

(** An exception that leaves a callback is reported by the browser and the
    page stays as the callback left it. *)
Definition uncaught (c : completion page) (p : page) : page :=
  match c with
  | Normal p' => p'
  | Throw _ => p
  end.

(** - [Click]: the button is rendered only while [isConnecting] is false.
    - [SocketOpened]: the handshake of a connecting socket succeeds.
    - [SocketFailed], [SocketClosed]: the browser sets [readyState] to
      [CLOSED], fires [error] when the connection failed, then [close].
    - [StreamGranted], [StreamDenied]: the promise of [getUserMedia]
      settles for the call that awaits it.
    - [RecorderStopped]: the recorder is inactive when [stop] fires.
    - [LoadEnd]: a pending reader finishes, with or without a result. *)
Definition step (e : event) (p : page) : page :=
  match e with
  | Click =>
      if isConnecting (self p) then p else handleToggleRecording p
  | SocketOpened ws =>
      match ready ws p with
      | Some CONNECTING => ws_onopen ws (set_readyState ws OPEN p)
      | _ => p
      end
  | SocketMessage ws frame =>
      match ready ws p with
      | Some OPEN => uncaught (ws_onmessage frame p) p
      | _ => p
      end
  | SocketFailed ws =>
      match ready ws p with
      | Some CLOSED | None => p
      | Some _ => ws_onclose (ws_onerror ws (set_readyState ws CLOSED p))
      end
  | SocketClosed ws =>
      match ready ws p with
      | Some CLOSED | None => p
      | Some _ => ws_onclose (set_readyState ws CLOSED p)
      end
  | StreamGranted ws =>
      match caller_of ws p with
      | Some AwaitUserMedia => startRecording_stream ws p
      | _ => p
      end
  | StreamDenied ws =>
      match caller_of ws p with
      | Some AwaitUserMedia => startRecording_catch ws p
      | _ => p
      end
  | DataAvailable recorder data => recorder_ondataavailable recorder data p
  | RecorderStopped recorder =>
      recorder_onstop recorder (set_rec_state recorder inactive p)
  | LoadEnd reader result =>
      match readers p !! reader with
      | Some ws =>
          let p := with_readers (delete reader) p in
          uncaught (reader_onloadend ws result p) p
      | None => p
      end
  end.

Definition run (events : list event) (p : page) : page :=
  fold_left (fun q e => step e q) events p.

(** What the host shows: the two observables of the session. *)
Definition RecordingState (p : page) : bool := App.isRecording (host p).
Definition ConnectionStatus (p : page) : string := App.connectionStatus (host p).

(** [data.key] read as a value: [undefined] where the access would raise. *)
Definition field (key : string) (data : json) : value :=
  match get data key with
  | Normal v => v
  | Throw _ => None
  end.

(** The kind discriminator of an inbound event. *)
Definition kind (data : json) : value := field "type" data.

(** The kinds [handleTranscriptUpdate] has a branch for. *)
Definition recognized (ty : value) : bool :=
  strict_eq_str ty "partial_transcript"
  || strict_eq_str ty "final_transcript"
  || strict_eq_str ty "insight_report"
  || strict_eq_str ty "status_update"
  || strict_eq_str ty "error".

(** The page once a session is being recorded: the button was clicked, the
    socket opened and the microphone was granted. *)
Definition recording_page : page :=
  run [Click; SocketOpened 0; StreamGranted 0] start_page.

(** A socket the browser has not closed yet. *)
Definition alive (ws : nat) (p : page) : bool :=
  match ready ws p with
  | Some CLOSED | None => false
  | Some _ => true
  end.

(** The recorder held in [mediaRecorderRef], if any, no longer records. *)
Definition capture_stopped (p : page) : bool :=
  match mediaRecorderRef (self p) with
  | Some recorder =>
      match rec_state <$> recorders p !! recorder with
      | Some inactive | None => true
      | Some _ => false
      end
  | None => true
  end.

(** The frame [stopRecording] would send now: on the socket held in
    [websocketRef], when it is open. *)
Definition stop_frame_now (p : page) : list (nat * json) :=
  match websocketRef (self p) with
  | Some ws => if is_open ws p then [(ws, stop_frame)] else []
  | None => []
  end.

Definition is_audio (frame : json) : bool := strict_eq_str (kind frame) "audio".
Definition is_stop (frame : json) : bool := strict_eq_str (kind frame) "stop".

Definition count_stop (frames : list (nat * json)) : nat :=
  length (List.filter (fun f => is_stop (snd f)) frames).

(** The frames sent over one socket. *)
Definition sent_on (ws : nat) (p : page) : list (nat * json) :=
  List.filter (fun f => Nat.eqb (fst f) ws) (sent p).

(** [reader.result.split(',')[1]] *)
Definition base64_of (url : string) : option string := split ","%char url !! 1.

Fixpoint comma_free (s : string) : bool :=
  match s with
  | EmptyString => true
  | String c rest => negb (Ascii.eqb c ","%char) && comma_free rest
  end.

(** What [readAsDataURL] yields for a chunk: the media type and the base64
    text of the bytes, with one comma between them. *)
Definition data_url (media payload : string) : string :=
  ("data:" ++ media ++ ";base64," ++ payload)%string.

(** The capture source produces the chunks one after the other, and the
    reader of each chunk finishes, with the given data URL, before the next
    chunk arrives. A chunk of size 0 gets no reader. *)
Fixpoint feed (recorder : nat) (chunks : list (Blob * string)) : list event :=
  match chunks with
  | [] => []
  | (data, url) :: rest =>
      DataAvailable recorder data
      :: (if (0 <? size data)%nat then [LoadEnd 0 (Some url)] else [])
      ++ feed recorder rest
  end.

(** The chunks [ondataavailable] keeps: those that are not empty. *)
Fixpoint kept (chunks : list (Blob * string)) : list Blob :=
  match chunks with
  | [] => []
  | (data, url) :: rest =>
      (if (0 <? size data)%nat then [data] else []) ++ kept rest
  end.

(** The audio frames of the chunks that are not empty, in order. *)
Fixpoint audio_frames (ws : nat) (chunks : list (Blob * string)) : list (nat * json) :=
  match chunks with
  | [] => []
  | (data, url) :: rest =>
      (if (0 <? size data)%nat then [(ws, audio_frame (base64_of url))] else [])
      ++ audio_frames ws rest
  end.

(** ** The rest of the front end *)

(** *** Base URLs *)

(** [s.replace(/\/$/, '')]: without the [m] flag, [$] is the end of the
    string, so at most the last character goes. *)
Fixpoint strip_trailing_slash (s : string) : string :=
  match s with
  | EmptyString => EmptyString
  | String c rest =>
      match rest with
      | EmptyString => if Ascii.eqb c "/"%char then EmptyString else s
      | String _ _ => String c (strip_trailing_slash rest)
      end
  end.

Fixpoint ends_with_slash (s : string) : bool :=
  match s with
  | EmptyString => false
  | String c rest =>
      match rest with
      | EmptyString => Ascii.eqb c "/"%char
      | String _ _ => ends_with_slash rest
      end
  end.

(** [(process.env.REACT_APP_API_BASE_URL || '').replace(/\/$/, '')], with
    [None] for a variable that is not set. *)
Definition API_BASE_URL (env : option string) : string :=
  strip_trailing_slash
    match env with
    | Some (String c rest) => String c rest
    | _ => EmptyString
    end.

(** The address [connectWebSocket] opens: [wsBaseUrl] is
    [process.env.REACT_APP_WS_BASE_URL], [protocol] and [host] come from
    [window.location], [sessionId] is the session id as the template
    literal prints it. *)
Definition wsOrigin (wsBaseUrl : option string) (protocol host : string) : string :=
  match wsBaseUrl with
  | Some (String c rest) => strip_trailing_slash (String c rest)
  | _ => ((if String.eqb protocol "https:" then "wss:" else "ws:") ++ "//" ++ host)%string
  end.

Definition wsUrl (wsBaseUrl : option string) (protocol host sessionId : string) : string :=
  (wsOrigin wsBaseUrl protocol host ++ "/ws/session/" ++ sessionId ++ "/")%string.

(** *** JavaScript truthiness *)

(** [!!v]. A number is only tested for being zero. *)
Definition truthy (v : value) : bool :=
  match v with
  | None | Some JNull | Some (JBool false) | Some (JNum 0) | Some (JStr EmptyString) => false
  | Some _ => true
  end.

(** What an HTTP request of [axios] comes back with: [response.data], or a
    rejection (no answer, or a status outside 2xx). *)
Inductive reply : Type :=
| Response (data : value)
| NoResponse.

(** *** App.js: patients, session and what is on screen *)

Module Shell.

(** All the state of [App]: the cells of [App.state] are the ones the
    streamer reports to. *)
Record state : Type := mk {
  patients : list value;
  selectedPatient : value;
  currentSession : value;
  session : App.state
}.

Definition init : state := mk [] (Some JNull) (Some JNull) App.init.

Definition with_session (f : App.state -> App.state) (s : state) : state :=
  mk (patients s) (selectedPatient s) (currentSession s) (f (session s)).
Definition setPatients (l : list value) (s : state) : state :=
  mk l (selectedPatient s) (currentSession s) (session s).
Definition setSelectedPatient (v : value) (s : state) : state :=
  mk (patients s) v (currentSession s) (session s).
Definition setCurrentSession (v : value) (s : state) : state :=
  mk (patients s) (selectedPatient s) v (session s).

(** [loadPatients], from the answer of [GET /api/patients/] on. *)
Definition loadPatients (r : reply) (s : state) : state :=
  match r with
  | Response (Some (JArr items)) => setPatients (map Some items) s
  | Response _ => setPatients [] s
  | NoResponse => setPatients [] s
  end.

(** [patients_seen] is the [patients] of the render whose handler runs. *)
Definition handlePatientCreated (patients_seen : list value) (newPatient : value)
    (s : state) : state :=
  let s := setPatients (patients_seen ++ [newPatient]) s in
  setSelectedPatient newPatient s.

Definition handleSessionStarted (newSession : value) (s : state) : state :=
  let s := setCurrentSession newSession s in
  let s := with_session (App.setTranscript (Some (JStr ""))) s in
  let s := with_session (App.setPartialTranscript (Some (JStr ""))) s in
  with_session (App.setInsightReport (Some JNull)) s.

(** The click handler of the back button. *)
Definition back (s : state) : state :=
  let s := setSelectedPatient (Some JNull) s in
  let s := setCurrentSession (Some JNull) s in
  let s := with_session (App.setTranscript (Some (JStr ""))) s in
  let s := with_session (App.setPartialTranscript (Some (JStr ""))) s in
  with_session (App.setInsightReport (Some JNull)) s.

(** Which of the three screens [App] renders. *)
Inductive screen : Type := PatientScreen | SessionManagerScreen | SessionScreen.

Definition view (s : state) : screen :=
  if negb (truthy (selectedPatient s)) then PatientScreen
  else if negb (truthy (currentSession s)) then SessionManagerScreen
  else SessionScreen.

(** The three conditional blocks of the session screen:
    [partialTranscript && ...], [transcript && ...], [insightReport && ...]. *)
Definition shows_partial (s : state) : bool := truthy (App.partialTranscript (session s)).
Definition shows_transcript (s : state) : bool := truthy (App.transcript (session s)).
Definition shows_report (s : state) : bool := truthy (App.insightReport (session s)).

End Shell.

(** *** PatientForm *)

Module PatientForm.

Record state : Type := mk {
  formData : list (string * json);
  isSubmitting : bool
}.

Definition blank : list (string * json) :=
  [("name", JStr ""); ("dob", JStr ""); ("address", JStr ""); ("diagnosis", JStr "")].

Definition init : state := mk blank false.

(** [{...prev, [name]: value}]: the key keeps its place when it is there
    already and is added at the end otherwise. *)
Fixpoint put (name : string) (v : json) (prev : list (string * json)) : list (string * json) :=
  match prev with
  | [] => [(name, v)]
  | (k, x) :: rest =>
      if String.eqb k name then (name, v) :: rest else (k, x) :: put name v rest
  end.

Definition handleChange (name value : string) (s : state) : state :=
  mk (put name (JStr value) (formData s)) (isSubmitting s).

(** [handleSubmit] up to its await: the flag, and the body of the request. *)
Definition handleSubmit (s : state) : state * json :=
  (mk (formData s) true, JObj (formData s)).

End PatientForm.

(** *** SessionManager *)

Module SessionManager.

Record state : Type := mk { isCreating : bool }.

Definition init : state := mk false.

(** The object literal [{patient_id: patient.id}], as it is serialized. *)
Definition body (patient : json) : completion json :=
  let! id := get patient "id" in
  Normal (JObj match id with
               | Some v => [("patient_id", v)]
               | None => []
               end).

End SessionManager.

(** *** The three components together *)

(** The host with the form and the session manager it renders, the alerts
    shown, and the bodies of the requests posted so far. *)
Record front : Type := mkFront {
  shell : Shell.state;
  form : PatientForm.state;
  manager : SessionManager.state;
  front_alerts : nat;
  posted : list json
}.

Definition front_init : front :=
  mkFront Shell.init PatientForm.init SessionManager.init 0 [].

(** [PatientForm.handleSubmit], from the call to the await. *)
Definition submit_patient (f : front) : front :=
  let (st, request) := PatientForm.handleSubmit (form f) in
  mkFront (shell f) st (manager f) (front_alerts f) (posted f ++ [request]).

(** [PatientForm.handleSubmit], from the answer on: [patients_seen] is the
    list the closure of [onPatientCreated] holds. *)
Definition patient_settled (patients_seen : list value) (r : reply) (f : front) : front :=
  match r with
  | Response data =>
      mkFront (Shell.handlePatientCreated patients_seen data (shell f))
        (PatientForm.mk PatientForm.blank false)
        (manager f) (front_alerts f) (posted f)
  | NoResponse =>
      mkFront (shell f)
        (PatientForm.mk (PatientForm.formData (form f)) false)
        (manager f) (S (front_alerts f)) (posted f)
  end.

Definition type_in (name value : string) (f : front) : front :=
  mkFront (shell f) (PatientForm.handleChange name value (form f)) (manager f)
    (front_alerts f) (posted f).

(** [SessionManager.handleStartSession], from the call to the await; the
    read of [patient.id] is inside the [try] block. *)
Definition start_session (f : front) : front :=
  let f := mkFront (shell f) (form f) (SessionManager.mk true) (front_alerts f) (posted f) in
  match Shell.selectedPatient (shell f) with
  | Some patient =>
      match SessionManager.body patient with
      | Normal request =>
          mkFront (shell f) (form f) (manager f) (front_alerts f) (posted f ++ [request])
      | Throw _ =>
          mkFront (shell f) (form f) (SessionManager.mk false) (S (front_alerts f)) (posted f)
      end
  | None =>
      mkFront (shell f) (form f) (SessionManager.mk false) (S (front_alerts f)) (posted f)
  end.

(** [SessionManager.handleStartSession], from the answer on. *)
Definition session_settled (r : reply) (f : front) : front :=
  match r with
  | Response data =>
      mkFront (Shell.handleSessionStarted data (shell f)) (form f)
        (SessionManager.mk false) (front_alerts f) (posted f)
  | NoResponse =>
      mkFront (shell f) (form f) (SessionManager.mk false) (S (front_alerts f)) (posted f)
  end.

(** *** Leaving the session screen *)

(** The back button pressed on the session screen: the host resets what
    [Shell.back] resets, and the streamer unmounts and runs its cleanup. *)
Definition leave (p : page) : page :=
  let p := with_host (App.setTranscript (Some (JStr ""))) p in
  let p := with_host (App.setPartialTranscript (Some (JStr ""))) p in
  let p := with_host (App.setInsightReport (Some JNull)) p in
  cleanup p.

(** *** Vocabulary of the further properties *)

(** The task is the browser changing the state of this socket. *)
Definition touches (e : event) (ws : nat) : bool :=
  match e with
  | SocketOpened k | SocketFailed k | SocketClosed k => Nat.eqb k ws
  | _ => false
  end.

(** A recorder that has stopped and whose microphone tracks are stopped. *)
Definition released (recorder : nat) (p : page) : bool :=
  match recorders p !! recorder with
  | Some r =>
      match rec_state r with
      | inactive => negb (tracks_live r)
      | _ => false
      end
  | None => false
  end.

(** The "Connecting to server..." message and the status the host shows
    say the same. *)
Definition connecting_agrees (p : page) : Prop :=
  isConnecting (self p) = String.eqb (ConnectionStatus p) "connecting".

(** The host shows a recording only when the component records, and the
    component records only with a recorder in [mediaRecorderRef], which
    always names a recorder that exists. *)
Definition recording_agrees (p : page) : Prop :=
  (RecordingState p = true -> isRecording (self p) = true)
  /\ (isRecording (self p) = true -> mediaRecorderRef (self p) <> None)
  /\ (forall r, mediaRecorderRef (self p) = Some r -> r < length (recorders p)).

(** The user types into the form: one [handleChange] per edit. *)
Definition type_edits (edits : list (string * string)) (f : front) : front :=
  fold_left (fun g e => type_in (fst e) (snd e) g) edits f.

(** The value the last edit of a field gave it, if the field was edited. *)
Fixpoint last_edit (name : string) (edits : list (string * string)) : option string :=
  match edits with
  | [] => None
  | (k, v) :: rest =>
      match last_edit name rest with
      | Some w => Some w
      | None => if String.eqb k name then Some v else None
      end
  end.

Definition type_all (edits : list (string * string)) (s : PatientForm.state) : PatientForm.state :=
  fold_left (fun st e => PatientForm.handleChange (fst e) (snd e) st) edits s.

(** * Inbound events *)

Section Inbound.

Variables (data : json) (p : page).

Lemma kind_is_object (ty : json) :
  kind data = Some ty -> exists fields, data = JObj fields.
Proof.
  unfold kind, field. destruct data; simpl; try discriminate. eauto.
Qed.

(** What [ws.onmessage] does with a frame of each recognized kind. *)
Lemma onmessage_final_transcript :
  kind data = Some (JStr "final_transcript") ->
  ws_onmessage (Some data) p =
  Normal (with_host (fun h => App.setPartialTranscript (Some (JStr ""))
                                (App.setTranscript (field "text" data) h)) p).
Proof.
  intros H. destruct (kind_is_object _ H) as [fields ->].
  unfold kind, field in H. simpl in H.
  unfold ws_onmessage, onTranscriptUpdate, App.handleTranscriptUpdate. simpl.
  rewrite H. reflexivity.
Qed.

Lemma onmessage_insight_report :
  kind data = Some (JStr "insight_report") ->
  ws_onmessage (Some data) p =
  Normal (with_host (fun h => App.setIsRecording false
                                (App.setInsightReport (field "report" data) h)) p).
Proof.
  intros H. destruct (kind_is_object _ H) as [fields ->].
  unfold kind, field in H. simpl in H.
  unfold ws_onmessage, onTranscriptUpdate, App.handleTranscriptUpdate. simpl.
  rewrite H. reflexivity.
Qed.

Lemma onmessage_error :
  kind data = Some (JStr "error") ->
  ws_onmessage (Some data) p = Normal (with_host (App.setIsRecording false) p).
Proof.
  intros H. destruct (kind_is_object _ H) as [fields ->].
  unfold kind, field in H. simpl in H.
  unfold ws_onmessage, onTranscriptUpdate, App.handleTranscriptUpdate. simpl.
  rewrite H. reflexivity.
Qed.

Lemma handle_unrecognized (h : App.state) (fields : list (string * json)) :
  recognized (assoc "type" fields) = false ->
  App.handleTranscriptUpdate (JObj fields) h = Normal h.
Proof.
  unfold recognized. intros H.
  repeat (apply orb_false_elim in H; destruct H as [H ?]).
  unfold App.handleTranscriptUpdate. simpl.
  repeat match goal with E : strict_eq_str _ _ = false |- _ => rewrite E; clear E end.
  reflexivity.
Qed.

Lemma page_eta : with_host (fun _ => host p) p = p.
Proof. destruct p; reflexivity. Qed.

End Inbound.

(** ** The claims about inbound events *)

(** C10. A [final_transcript] event replaces the stored final transcript by
    the text of the event, whatever was stored before, and resets the
    pending partial transcript to the empty string in the same reaction. *)
Theorem final_transcript_replaces (data : json) (p : page) :
  kind data = Some (JStr "final_transcript") ->
  exists p',
    ws_onmessage (Some data) p = Normal p'
    /\ App.transcript (host p') = field "text" data
    /\ App.partialTranscript (host p') = Some (JStr "").
Proof.
  intros H. eexists. split; [apply onmessage_final_transcript, H|].
  split; reflexivity.
Qed.

Lemma final_transcript_replaces_witness :
  exists p',
    ws_onmessage
      (Some (JObj [("type", JStr "final_transcript");
                   ("text", JStr "patient reports headache")]))
      (with_host (App.setTranscript (Some (JStr "earlier utterance"))) recording_page)
    = Normal p'
    /\ App.transcript (host p') = Some (JStr "patient reports headache")
    /\ App.partialTranscript (host p') = Some (JStr "").
Proof.
  apply (final_transcript_replaces
           (JObj [("type", JStr "final_transcript");
                  ("text", JStr "patient reports headache")])).
  reflexivity.
Defined.




(** C8. An event whose kind is none of the five recognized ones changes
    nothing and raises nothing: [ws.onmessage] completes normally with the
    page it started from, and so does the task that delivers the frame. *)
Theorem unknown_kind_is_ignored (ws : nat) (data : json) (p : page) :
  recognized (kind data) = false ->
  ws_onmessage (Some data) p = Normal p
  /\ step (SocketMessage ws (Some data)) p = p.
Proof.
  intros H.
  assert (E : ws_onmessage (Some data) p = Normal p).
  { unfold ws_onmessage, onTranscriptUpdate. simpl.
    destruct data; try reflexivity;
      try (unfold App.handleTranscriptUpdate; simpl; now rewrite page_eta).
    unfold kind, field in H. simpl in H.
    rewrite (handle_unrecognized _ _ H). simpl. now rewrite page_eta. }
  split; [exact E|].
  simpl. destruct (ready ws p) as [[]|]; try reflexivity.
  now rewrite E.
Qed.

Lemma unknown_kind_is_ignored_witness :
  ws_onmessage (Some (JObj [("type", JStr "unknown_kind")])) recording_page
  = Normal recording_page
  /\ step (SocketMessage 0 (Some (JObj [("type", JStr "unknown_kind")]))) recording_page
     = recording_page.
Proof.
  apply (unknown_kind_is_ignored 0 (JObj [("type", JStr "unknown_kind")])).
  reflexivity.
Defined.

(** A frame that is not JSON is dropped inside [ws.onmessage] as well. *)
Lemma malformed_frame_is_ignored (p : page) : ws_onmessage None p = Normal p.
Proof. reflexivity. Qed.

(** C5, as the code has it. An [error] event forces the recording state of
    the host to false and changes nothing else: the connection status, the
    transcripts, the report, the component, the sockets, the recorders and
    the frames sent stay as they were. *)
Theorem error_event_ends_recording (data : json) (p : page) :
  kind data = Some (JStr "error") ->
  exists p',
    ws_onmessage (Some data) p = Normal p'
    /\ p' = onRecordingStateChange false p
    /\ RecordingState p' = false
    /\ ConnectionStatus p' = ConnectionStatus p
    /\ App.transcript (host p') = App.transcript (host p)
    /\ App.partialTranscript (host p') = App.partialTranscript (host p)
    /\ App.insightReport (host p') = App.insightReport (host p)
    /\ self p' = self p /\ sockets p' = sockets p
    /\ recorders p' = recorders p /\ sent p' = sent p.
Proof.
  intros H. eexists. split; [apply onmessage_error, H|].
  repeat split; reflexivity.
Qed.

Lemma error_event_ends_recording_witness :
  exists p',
    ws_onmessage (Some (JObj [("type", JStr "error"); ("message", JStr "asr failed")]))
      recording_page = Normal p'
    /\ p' = onRecordingStateChange false recording_page
    /\ RecordingState p' = false
    /\ ConnectionStatus p' = ConnectionStatus recording_page
    /\ App.transcript (host p') = App.transcript (host recording_page)
    /\ App.partialTranscript (host p') = App.partialTranscript (host recording_page)
    /\ App.insightReport (host p') = App.insightReport (host recording_page)
    /\ self p' = self recording_page /\ sockets p' = sockets recording_page
    /\ recorders p' = recorders recording_page /\ sent p' = sent recording_page.
Proof.
  apply (error_event_ends_recording
           (JObj [("type", JStr "error"); ("message", JStr "asr failed")])).
  reflexivity.
Defined.

(** C5, as stated, fails: the session is recording, an [error] frame
    arrives on its open socket, and the recording state is false after. *)
Lemma error_event_changes_state :
  RecordingState recording_page = true
  /\ RecordingState
       (step (SocketMessage 0 (Some (JObj [("type", JStr "error");
                                            ("message", JStr "asr failed")])))
             recording_page) = false.
Proof. split; reflexivity. Qed.

(** * Sockets, awaits and the frames sent *)

(** ** How the primitive updates act on the sockets *)

Section Sockets.

Variables (ws : nat) (p : page).

Lemma ready_set_readyState (k : nat) (rs : ready_state) :
  ready ws (set_readyState k rs p) =
  if decide (k = ws) then (fun _ => rs) <$> ready ws p else ready ws p.
Proof.
  unfold ready, set_readyState. simpl.
  rewrite list_lookup_alter. case_decide; [subst k|reflexivity].
  now destruct (sockets p !! ws).
Qed.

Lemma caller_of_set_readyState (k : nat) (rs : ready_state) :
  caller_of ws (set_readyState k rs p) = caller_of ws p.
Proof.
  unfold caller_of, set_readyState. simpl.
  rewrite list_lookup_alter. case_decide; [subst k|reflexivity].
  now destruct (sockets p !! ws).
Qed.

Lemma ready_set_caller (k : nat) (a : async_state) :
  ready ws (set_caller k a p) = ready ws p.
Proof.
  unfold ready, set_caller. simpl.
  rewrite list_lookup_alter. case_decide; [subst k|reflexivity].
  now destruct (sockets p !! ws).
Qed.

Lemma caller_of_set_caller (k : nat) (a : async_state) :
  caller_of ws (set_caller k a p) =
  if decide (k = ws) then (fun _ => a) <$> caller_of ws p else caller_of ws p.
Proof.
  unfold caller_of, set_caller. simpl.
  rewrite list_lookup_alter. case_decide; [subst k|reflexivity].
  now destruct (sockets p !! ws).
Qed.

Lemma is_open_set_caller (k : nat) (a : async_state) :
  is_open ws (set_caller k a p) = is_open ws p.
Proof. unfold is_open. now rewrite ready_set_caller. Qed.

(** A socket that exists keeps its index when a new one is created. *)
Lemma caller_of_new_socket (s : WebSocket) (a : async_state) :
  caller_of ws p = Some a ->
  caller_of ws (with_sockets (fun l => l ++ [s]) p) = Some a.
Proof.
  unfold caller_of. simpl. intros H.
  destruct (sockets p !! ws) as [x|] eqn:E; [|discriminate].
  now rewrite (lookup_app_l_Some _ _ _ _ E).
Qed.

Lemma ready_new_socket (s : WebSocket) (rs : ready_state) :
  ready ws p = Some rs ->
  ready ws (with_sockets (fun l => l ++ [s]) p) = Some rs.
Proof.
  unfold ready. simpl. intros H.
  destruct (sockets p !! ws) as [x|] eqn:E; [|discriminate].
  now rewrite (lookup_app_l_Some _ _ _ _ E).
Qed.

End Sockets.

(** ** A returned call stays returned *)

Lemma stopRecording_sockets (p : page) : sockets (stopRecording p) = sockets p.
Proof.
  unfold stopRecording, send_stop, stop_capture.
  destruct (mediaRecorderRef (self p)) as [m|];
    [destruct (rec_state <$> recorders p !! m) as [[]|]|];
    simpl; (destruct (websocketRef _) as [w|]; [destruct (is_open w _)|]);
    reflexivity.
Qed.

(** The promise of a [startRecording] call settles once: no later task
    resumes the call, so it never reaches [getUserMedia] afterwards. *)
Lemma settled_step (ws : nat) (r : settle) (e : event) (p : page) :
  caller_of ws p = Some (Settled r) ->
  caller_of ws (step e p) = Some (Settled r).
Proof.
  intros H.
  assert (Hset : forall k a q,
             k <> ws -> caller_of ws q = Some (Settled r) ->
             caller_of ws (set_caller k a q) = Some (Settled r)).
  { intros k a q Hk Hq. rewrite caller_of_set_caller. now case_decide. }
  assert (Hne : forall k a q,
             caller_of ws q = Some (Settled r) -> caller_of k q = Some a ->
             a <> Settled r -> k <> ws).
  { intros k a q Hq Hk Ha ->. congruence. }
  destruct e as [|k|k frame|k|k|k|k|rec data|rec|i result]; simpl.
  - destruct (isConnecting (self p)); [exact H|].
    unfold handleToggleRecording, startRecording, connectWebSocket.
    destruct (isRecording (self p)).
    + unfold caller_of. rewrite stopRecording_sockets. exact H.
    + simpl. now apply (caller_of_new_socket ws
                          (with_host (App.handleConnectionStatusChange "connecting")
                             (setIsConnecting true p))).
  - destruct (ready k p) as [[]|] eqn:E; try exact H.
    unfold ws_onopen, resolve.
    destruct (caller_of k _) as [[]|] eqn:C; simpl;
      try (change (caller_of ws (set_readyState k OPEN p) = Some (Settled r));
           now rewrite caller_of_set_readyState).
    unfold startRecording_connected. apply Hset.
    + intros ->. change (caller_of ws (set_readyState ws OPEN p) = Some AwaitConnect) in C.
      rewrite caller_of_set_readyState in C. congruence.
    + change (caller_of ws (set_readyState k OPEN p) = Some (Settled r)).
      now rewrite caller_of_set_readyState.
  - destruct (ready k p) as [[]|]; try exact H.
    unfold ws_onmessage. destruct (let! data := JSON_parse frame in _) eqn:E; simpl; [|exact H].
    destruct frame as [data|]; simpl in E; [|discriminate].
    unfold onTranscriptUpdate in E.
    destruct (App.handleTranscriptUpdate data (host p)); simpl in E; [|discriminate].
    injection E as <-. exact H.
  - destruct (ready k p) as [[]|] eqn:E; try exact H;
      unfold ws_onclose, ws_onerror, reject;
      (destruct (caller_of k _) as [[]|] eqn:C; simpl;
       try (change (caller_of ws (set_readyState k CLOSED p) = Some (Settled r));
            now rewrite caller_of_set_readyState);
       change (caller_of ws (set_caller k (Settled Fulfilled)
                               (set_readyState k CLOSED p)) = Some (Settled r));
       apply Hset;
       [intros ->; change (caller_of ws (set_readyState ws CLOSED p) = Some AwaitConnect) in C;
        rewrite caller_of_set_readyState in C; congruence
       |now rewrite caller_of_set_readyState]).
  - destruct (ready k p) as [[]|]; try exact H;
      (change (caller_of ws (set_readyState k CLOSED p) = Some (Settled r));
       now rewrite caller_of_set_readyState).
  - destruct (caller_of k p) as [[]|] eqn:C; try exact H.
    unfold startRecording_stream.
    change (caller_of ws (set_caller k (Settled Fulfilled) p) = Some (Settled r)).
    apply Hset; [|exact H]. intros ->. congruence.
  - destruct (caller_of k p) as [[]|] eqn:C; try exact H.
    unfold startRecording_catch.
    change (caller_of ws (set_caller k (Settled Fulfilled) p) = Some (Settled r)).
    apply Hset; [|exact H]. intros ->. congruence.
  - unfold recorder_ondataavailable.
    destruct (recorders p !! rec); [|exact H].
    destruct (0 <? size data)%nat; exact H.
  - exact H.
  - destruct (readers p !! i) as [k|]; [|exact H].
    unfold reader_onloadend. destruct result as [url|]; simpl; [|exact H].
    destruct (is_open k _); exact H.
Qed.

Lemma settled_run (ws : nat) (r : settle) (events : list event) (p : page) :
  caller_of ws p = Some (Settled r) ->
  caller_of ws (run events p) = Some (Settled r).
Proof.
  revert p. induction events as [|e events IH]; intros p H; [exact H|].
  simpl. apply IH, settled_step, H.
Qed.

(** ** Losing the connection *)

(** C1, as the code has it. When the browser closes a socket, after a failure
    or not, the connection status becomes disconnected, [isConnecting] is
    reset and the socket ref is cleared; the recording state of the host,
    the recording flag of the component and every recorder stay as they
    were. *)
Theorem disconnect_keeps_recording (ws : nat) (failed : bool) (p : page) :
  alive ws p = true ->
  let p' := step (if failed then SocketFailed ws else SocketClosed ws) p in
  ConnectionStatus p' = "disconnected"
  /\ isConnecting (self p') = false
  /\ websocketRef (self p') = None
  /\ RecordingState p' = RecordingState p
  /\ isRecording (self p') = isRecording (self p)
  /\ recorders p' = recorders p.
Proof.
  unfold alive. intros H.
  destruct failed; simpl; destruct (ready ws p) as [[]|]; try discriminate H;
    unfold ws_onclose, ws_onerror, reject;
    try destruct (caller_of ws _) as [[]|];
    repeat split; reflexivity.
Qed.

Lemma disconnect_keeps_recording_witness :
  let p' := step (SocketClosed 0) recording_page in
  ConnectionStatus p' = "disconnected"
  /\ isConnecting (self p') = false
  /\ websocketRef (self p') = None
  /\ RecordingState p' = RecordingState recording_page
  /\ isRecording (self p') = isRecording (self recording_page)
  /\ recorders p' = recorders recording_page.
Proof.
  apply (disconnect_keeps_recording 0 false recording_page). reflexivity.
Defined.

(** C1, as stated, fails: the session is recording over a connected socket,
    the socket closes, and the host shows a recording session on a
    disconnected channel, with the recorder still running. *)
Lemma recording_survives_disconnect :
  RecordingState recording_page = true
  /\ ConnectionStatus recording_page = "connected"
  /\ ConnectionStatus (step (SocketClosed 0) recording_page) = "disconnected"
  /\ RecordingState (step (SocketClosed 0) recording_page) = true
  /\ rec_state <$> recorders (step (SocketClosed 0) recording_page) !! 0 = Some recording.
Proof. repeat split; reflexivity. Qed.

(** ** Failing to start *)

(** C3, on the code: the socket opens, the microphone is denied, and the
    call returns through its [catch] block with the socket still open and
    still held in [websocketRef], under a status of disconnected. *)
Lemma socket_left_open_after_denial :
  let p := run [Click; SocketOpened 0; StreamDenied 0] start_page in
  caller_of 0 p = Some (Settled Fulfilled)
  /\ ConnectionStatus p = "disconnected"
  /\ ready 0 p = Some OPEN
  /\ websocketRef (self p) = Some 0
  /\ recorders p = [].
Proof. repeat split; reflexivity. Qed.

(** The [catch] block closes no socket, whatever the page. *)
Lemma catch_closes_nothing (ws k : nat) (p : page) :
  ready k (startRecording_catch ws p) = ready k p.
Proof. unfold startRecording_catch. now rewrite ready_set_caller. Qed.

(** The other way out of the component does close it: the cleanup on
    unmount calls [close] on the socket in [websocketRef]. *)
Lemma cleanup_closes_socket :
  let p := run [Click; SocketOpened 0; StreamDenied 0] start_page in
  ready 0 (cleanup p) = Some CLOSING.
Proof. reflexivity. Qed.

(** C4, as the code has it. When the socket fails while [startRecording]
    awaits it, the call returns through its [catch] block: its promise is
    fulfilled, one alert is shown, no recorder is created, the connection
    status ends at disconnected, and no later task resumes the call, so it
    never asks for the microphone. *)
Theorem open_failure_is_caught (ws : nat) (p : page) :
  alive ws p = true ->
  caller_of ws p = Some AwaitConnect ->
  let p' := step (SocketFailed ws) p in
  caller_of ws p' = Some (Settled Fulfilled)
  /\ alerts p' = S (alerts p)
  /\ recorders p' = recorders p
  /\ mediaRecorderRef (self p') = mediaRecorderRef (self p)
  /\ RecordingState p' = RecordingState p
  /\ ConnectionStatus p' = "disconnected"
  /\ forall events, caller_of ws (run events p') = Some (Settled Fulfilled).
Proof.
  unfold alive. intros H C.
  assert (S : caller_of ws (step (SocketFailed ws) p) = Some (Settled Fulfilled)
              /\ alerts (step (SocketFailed ws) p) = S (alerts p)
              /\ recorders (step (SocketFailed ws) p) = recorders p
              /\ mediaRecorderRef (self (step (SocketFailed ws) p)) = mediaRecorderRef (self p)
              /\ RecordingState (step (SocketFailed ws) p) = RecordingState p
              /\ ConnectionStatus (step (SocketFailed ws) p) = "disconnected").
  { assert (E : caller_of ws (onConnectionStatusChange "disconnected"
                                (setIsConnecting false (set_readyState ws CLOSED p)))
                 = Some AwaitConnect).
    { change (caller_of ws (set_readyState ws CLOSED p) = Some AwaitConnect).
      now rewrite caller_of_set_readyState. }
    simpl. destruct (ready ws p) as [[]|]; try discriminate H;
      unfold ws_onclose, ws_onerror, reject; rewrite E;
      (split; [|repeat split; reflexivity]);
      change (caller_of ws (set_caller ws (Settled Fulfilled) (set_readyState ws CLOSED p))
              = Some (Settled Fulfilled));
      rewrite caller_of_set_caller, caller_of_set_readyState, C;
      now case_decide. }
  destruct S as (S1 & S2 & S3 & S4 & S5 & S6).
  repeat split; try assumption.
  intros events. apply settled_run, S1.
Qed.

Lemma open_failure_is_caught_witness :
  let p' := step (SocketFailed 0) (step Click start_page) in
  caller_of 0 p' = Some (Settled Fulfilled)
  /\ alerts p' = 1
  /\ recorders p' = []
  /\ mediaRecorderRef (self p') = None
  /\ RecordingState p' = false
  /\ ConnectionStatus p' = "disconnected"
  /\ forall events, caller_of 0 (run events p') = Some (Settled Fulfilled).
Proof.
  apply (open_failure_is_caught 0 (step Click start_page)); reflexivity.
Defined.

(** C4, as stated, fails: the socket of the first call fails to open and the
    promise of the call is fulfilled, not rejected. *)
Lemma open_failure_does_not_reject :
  let p := run [Click; SocketFailed 0] start_page in
  caller_of 0 p = Some (Settled Fulfilled)
  /\ caller_of 0 p <> Some (Settled Rejected).
Proof. split; [reflexivity|discriminate]. Qed.

(** ** Stopping twice *)

Lemma with_sent_nil (p : page) : with_sent (fun frames => frames ++ []) p = p.
Proof. destruct p. unfold with_sent. simpl. now rewrite app_nil_r. Qed.

Lemma send_stop_eq (p : page) :
  send_stop p = with_sent (fun frames => frames ++ stop_frame_now p) p.
Proof.
  unfold send_stop, stop_frame_now.
  destruct (websocketRef (self p)) as [ws|]; [destruct (is_open ws p)|];
    now rewrite ?with_sent_nil.
Qed.

Lemma stop_capture_stopped (p : page) : capture_stopped (stop_capture p) = true.
Proof.
  unfold stop_capture, capture_stopped.
  destruct (mediaRecorderRef (self p)) as [rec|] eqn:M; [|now rewrite M].
  destruct (recorders p !! rec) as [[[] k t]|] eqn:E; simpl; rewrite ?M, ?E;
    try reflexivity; now rewrite list_lookup_alter_eq, E.
Qed.

Lemma stop_capture_again (p : page) :
  capture_stopped p = true -> stop_capture p = p.
Proof.
  unfold stop_capture, capture_stopped.
  destruct (mediaRecorderRef (self p)) as [rec|]; [|reflexivity].
  now destruct (rec_state <$> recorders p !! rec) as [[]|].
Qed.

Lemma stop_capture_stop_frame_now (p : page) :
  stop_frame_now (stop_capture p) = stop_frame_now p.
Proof.
  unfold stop_capture.
  destruct (mediaRecorderRef (self p)) as [rec|]; [|reflexivity].
  now destruct (rec_state <$> recorders p !! rec) as [[]|].
Qed.

Lemma stopRecording_sent (p : page) :
  sent (stopRecording p) = sent p ++ stop_frame_now p.
Proof.
  unfold stopRecording. rewrite send_stop_eq.
  change (sent (stop_capture p) ++ stop_frame_now (stop_capture p)
          = sent p ++ stop_frame_now p).
  rewrite stop_capture_stop_frame_now. f_equal.
  unfold stop_capture.
  destruct (mediaRecorderRef (self p)) as [rec|]; [|reflexivity].
  now destruct (rec_state <$> recorders p !! rec) as [[]|].
Qed.

Lemma stopRecording_capture (p : page) : capture_stopped (stopRecording p) = true.
Proof.
  unfold stopRecording. rewrite send_stop_eq.
  exact (stop_capture_stopped p).
Qed.

Lemma stopRecording_stop_frame_now (p : page) :
  stop_frame_now (stopRecording p) = stop_frame_now p.
Proof.
  unfold stopRecording. rewrite send_stop_eq.
  exact (stop_capture_stop_frame_now p).
Qed.

(** Once the recorder is inactive and both recording flags are false,
    [stopRecording] can only send the stop frame. *)
Lemma stopRecording_again (p : page) :
  capture_stopped p = true ->
  isRecording (self p) = false ->
  App.isRecording (host p) = false ->
  stopRecording p = with_sent (fun frames => frames ++ stop_frame_now p) p.
Proof.
  intros C R H. unfold stopRecording.
  rewrite (stop_capture_again p C), send_stop_eq.
  destruct p as [[t pt ir hr cs] [r c a w m] socks recs rds snt al].
  simpl in R, H. now subst.
Qed.

(** C2, as the code has it. The first [stopRecording] leaves the recorder
    inactive; a second one, right after it, changes nothing in the page
    except that it sends the stop frame once more when the socket in
    [websocketRef] is (still) open. Each call sends the stop frame under the
    same condition, so the two calls send two stop frames over an open
    socket and none otherwise. *)
Theorem second_stop_sends_again (p : page) :
  let p1 := stopRecording p in
  let p2 := stopRecording p1 in
  capture_stopped p1 = true
  /\ sent p1 = sent p ++ stop_frame_now p
  /\ p2 = with_sent (fun frames => frames ++ stop_frame_now p) p1.
Proof.
  intros p1 p2. split; [apply stopRecording_capture|].
  split; [apply stopRecording_sent|].
  subst p2. rewrite stopRecording_again.
  - subst p1. now rewrite stopRecording_stop_frame_now.
  - apply stopRecording_capture.
  - reflexivity.
  - reflexivity.
Qed.

(** C2, as stated, fails: a session is recording over an open socket,
    [stopRecording] runs twice in a row, and two stop frames are sent. *)
Lemma two_stops_send_two_frames :
  let p2 := stopRecording (stopRecording recording_page) in
  sent p2 = [(0, stop_frame); (0, stop_frame)]
  /\ count_stop (sent p2) = 2.
Proof. split; reflexivity. Qed.

(** The tracks of the microphone stream are stopped by the [onstop]
    handler, in the task that follows [stopRecording]. *)
Lemma tracks_stop_with_the_stop_event :
  let p := stopRecording recording_page in
  tracks_live <$> recorders p !! 0 = Some true
  /\ tracks_live <$> recorders (step (RecorderStopped 0) p) !! 0 = Some false.
Proof. split; reflexivity. Qed.

(** ** Frames are sent over open sockets only *)

Lemma stop_frame_now_open (p : page) :
  Forall (fun f => is_open (fst f) p = true) (stop_frame_now p).
Proof.
  unfold stop_frame_now. destruct (websocketRef (self p)) as [ws|]; [|constructor].
  destruct (is_open ws p) eqn:E; constructor; [exact E|constructor].
Qed.

Lemma nothing_sent (p p' : page) :
  sent p' = sent p ->
  exists new, sent p' = sent p ++ new /\ Forall (fun f => is_open (fst f) p = true) new.
Proof. intros ->. exists []. split; [now rewrite app_nil_r|constructor]. Qed.

Lemma onmessage_sent (frame : option json) (p : page) :
  sent (uncaught (ws_onmessage frame p) p) = sent p.
Proof.
  unfold ws_onmessage, onTranscriptUpdate.
  destruct frame as [data|]; simpl; [|reflexivity].
  destruct (App.handleTranscriptUpdate data (host p)); reflexivity.
Qed.

(** Every frame a task sends goes over a socket that is open when the
    task starts. *)
Lemma frames_sent_by (e : event) (p : page) :
  exists new,
    sent (step e p) = sent p ++ new
    /\ Forall (fun f => is_open (fst f) p = true) new.
Proof.
  destruct e as [|k|k frame|k|k|k|k|rec data|rec|i result]; simpl.
  - destruct (isConnecting (self p)); [now apply nothing_sent|].
    unfold handleToggleRecording. destruct (isRecording (self p)).
    + exists (stop_frame_now p). split; [apply stopRecording_sent|apply stop_frame_now_open].
    + now apply nothing_sent.
  - apply nothing_sent. destruct (ready k p) as [[]|]; try reflexivity.
    unfold ws_onopen, resolve. now destruct (caller_of k _) as [[]|].
  - apply nothing_sent. destruct (ready k p) as [[]|]; try reflexivity.
    apply onmessage_sent.
  - apply nothing_sent. destruct (ready k p) as [[]|]; try reflexivity;
      unfold ws_onclose, ws_onerror, reject; now destruct (caller_of k _) as [[]|].
  - apply nothing_sent. now destruct (ready k p) as [[]|].
  - apply nothing_sent. now destruct (caller_of k p) as [[]|].
  - apply nothing_sent. now destruct (caller_of k p) as [[]|].
  - apply nothing_sent. unfold recorder_ondataavailable.
    destruct (recorders p !! rec); [|reflexivity].
    now destruct (0 <? size data)%nat.
  - now apply nothing_sent.
  - destruct (readers p !! i) as [k|]; [|now apply nothing_sent].
    destruct result as [url|]; simpl; [|now apply nothing_sent].
    change (is_open k (with_readers (delete i) p)) with (is_open k p).
    destruct (is_open k p) eqn:E; [|now apply nothing_sent].
    eexists. split; [reflexivity|]. constructor; [exact E|constructor].
Qed.

(** C7, as the code has it. Whatever the task and the page, every frame the
    task sends goes over a socket whose [readyState] is [OPEN] when the task
    starts. A chunk whose reader finishes while the socket of its closure is
    not open is dropped: the reader is gone, nothing is sent and nothing
    else changes; [stopRecording] sends nothing when the socket in
    [websocketRef] is not open. *)
Theorem frames_need_open_socket (e : event) (p : page) :
  (exists new,
      sent (step e p) = sent p ++ new
      /\ Forall (fun f => is_open (fst f) p = true) new)
  /\ (forall reader ws result,
         e = LoadEnd reader result ->
         readers p !! reader = Some ws -> is_open ws p = false ->
         step e p = with_readers (delete reader) p)
  /\ (forall ws,
         websocketRef (self p) = Some ws -> is_open ws p = false ->
         sent (stopRecording p) = sent p).
Proof.
  split; [apply frames_sent_by|split].
  - intros reader ws result -> R O. simpl. rewrite R.
    destruct result as [url|]; simpl; [|reflexivity].
    change (is_open ws (with_readers (delete reader) p)) with (is_open ws p).
    now rewrite O.
  - intros ws W O. rewrite stopRecording_sent. unfold stop_frame_now.
    rewrite W, O. apply app_nil_r.
Qed.

Lemma frames_need_open_socket_witness :
  let p := run [Click; SocketOpened 0; StreamGranted 0;
                DataAvailable 0 [x41]; SocketClosed 0] start_page in
  readers p = [0] /\ is_open 0 p = false
  /\ step (LoadEnd 0 (Some "data:audio/webm;codecs=opus;base64,QQ==")) p
     = with_readers (delete 0) p.
Proof.
  intros p. split; [reflexivity|]. split; [reflexivity|].
  exact (proj1 (proj2 (frames_need_open_socket
                         (LoadEnd 0 (Some "data:audio/webm;codecs=opus;base64,QQ==")) p))
           0 0 _ eq_refl eq_refl eq_refl).
Defined.

(** C7, as stated, fails: the button is clicked again while the first call
    waits for the microphone; the status goes back to connecting, the
    microphone is granted to the first call, a chunk is read, and its audio
    frame leaves over the first socket under a status of connecting. *)
Lemma frame_sent_while_connecting :
  let p := run [Click; SocketOpened 0; Click; StreamGranted 0;
                DataAvailable 0 [x41]] start_page in
  let p' := step (LoadEnd 0 (Some "data:audio/webm;codecs=opus;base64,QQ==")) p in
  ConnectionStatus p = "connecting"
  /\ ConnectionStatus p' = "connecting"
  /\ sent p = []
  /\ sent p' = [(0, audio_frame (Some "QQ=="))].
Proof. repeat split; reflexivity. Qed.

(** ** The payload of an audio frame *)

Lemma frame_kinds (base64Audio : option string) :
  is_audio (audio_frame base64Audio) = true
  /\ is_stop (audio_frame base64Audio) = false
  /\ is_stop stop_frame = true
  /\ is_audio stop_frame = false.
Proof. repeat split; reflexivity. Qed.

Lemma split_comma_free (s : string) :
  comma_free s = true -> split ","%char s = [s].
Proof.
  induction s as [|c s IH]; simpl; [reflexivity|].
  intros H. apply andb_true_iff in H as [Hc Hs].
  apply negb_true_iff in Hc. rewrite Hc, (IH Hs). reflexivity.
Qed.

Lemma split_at_first_comma (prefix rest : string) :
  comma_free prefix = true ->
  split ","%char (prefix ++ String ","%char rest)%string
  = prefix :: split ","%char rest.
Proof.
  induction prefix as [|c prefix IH]; simpl; [reflexivity|].
  intros H. apply andb_true_iff in H as [Hc Hs].
  apply negb_true_iff in Hc. rewrite Hc, (IH Hs). reflexivity.
Qed.

(** X9. Reading the payload back from a data URL gives the base64 text the
    URL was made of, so the audio frame carries the base64 text of the
    chunk: the media type of the recorder has no comma, and neither has
    base64 text. *)
Lemma base64_of_data_url (media payload : string) :
  comma_free media = true -> comma_free payload = true ->
  base64_of (data_url media payload) = Some payload.
Proof.
  intros Hm Hp. unfold base64_of, data_url.
  replace ("data:" ++ media ++ ";base64," ++ payload)%string
    with (("data:" ++ media ++ ";base64") ++ String ","%char payload)%string.
  - rewrite split_at_first_comma, (split_comma_free _ Hp); [reflexivity|].
    simpl. clear Hp. induction media as [|c media IH]; [reflexivity|].
    simpl in *. apply andb_true_iff in Hm as [Hc Hs].
    rewrite Hc. exact (IH Hs).
  - simpl. do 5 f_equal. clear. induction media as [|c media IH]; [reflexivity|].
    simpl. now rewrite IH.
Qed.

(** ** A recorded session *)


(** While the socket of the recorder stays open and every reader finishes
    before the next chunk, the page gains the chunks that are not empty and
    their audio frames, in the order of the chunks, and nothing else. *)
Lemma feed_sends (recorder ws : nat) (chunks : list (Blob * string)) :
  forall p : page,
    rec_ws <$> recorders p !! recorder = Some ws ->
    is_open ws p = true ->
    readers p = [] ->
    run (feed recorder chunks) p =
    with_sent (fun frames => frames ++ audio_frames ws chunks)
      (set_audioChunksRef (audioChunksRef (self p) ++ kept chunks) p).
Proof.
  induction chunks as [|[data url] rest IH]; intros p R O Q.
  - destruct p as [h [r c a w m] socks recs rds snt al]. simpl.
    unfold with_sent, set_audioChunksRef, with_self. simpl.
    now rewrite !app_nil_r.
  - cbn [feed audio_frames kept]. cbn [run fold_left step].
    fold (run ((if (0 <? size data)%nat then [LoadEnd 0 (Some url)] else [])
               ++ feed recorder rest)).
    unfold recorder_ondataavailable.
    destruct (recorders p !! recorder) as [rc|] eqn:E; [|discriminate R].
    simpl in R. injection R as R.
    destruct (0 <? size data)%nat.
    + cbn [app run fold_left step]. fold (run (feed recorder rest)).
      cbn [readers with_readers set_audioChunksRef with_self].
      rewrite Q, R. cbn [app lookup list_lookup].
      unfold reader_onloadend.
      match goal with
      | |- context [is_open ws ?q] => change (is_open ws q) with (is_open ws p)
      end.
      rewrite O. cbn [uncaught].
      rewrite IH.
      * destruct p as [h [r c a w m] socks recs rds snt al].
        simpl in Q. subst rds.
        unfold with_sent, send, set_audioChunksRef, with_self, with_readers, base64_of.
        simpl. now rewrite <- !app_assoc.
      * change (rec_ws <$> recorders p !! recorder = Some ws).
        rewrite E. simpl. now rewrite R.
      * exact O.
      * cbn. now rewrite Q.
    + cbn [app]. apply IH; [|exact O|exact Q].
      rewrite E. simpl. now rewrite R.
Qed.









(** Why no other task may come between the two clicks: a socket left open
    by an earlier failed start closes during the session, [ws.onclose]
    clears [websocketRef], and the click sends no stop frame. *)
Lemma stale_close_loses_the_stop :
  sent (run [Click; SocketOpened 0; StreamDenied 0;
             Click; SocketOpened 1; StreamGranted 1;
             SocketClosed 0;
             DataAvailable 0 [x41]; LoadEnd 0 (Some "data:audio/webm;codecs=opus;base64,QQ==");
             DataAvailable 0 [x42]; LoadEnd 0 (Some "data:audio/webm;codecs=opus;base64,Qg==");
             DataAvailable 0 [x43]; LoadEnd 0 (Some "data:audio/webm;codecs=opus;base64,Qw==");
             Click] start_page)
  = [(1, audio_frame (Some "QQ==")); (1, audio_frame (Some "Qg=="));
     (1, audio_frame (Some "Qw=="))].
Proof. reflexivity. Qed.

(** ** A closed socket carries nothing more *)

Lemma onmessage_sockets (frame : option json) (p : page) :
  sockets (uncaught (ws_onmessage frame p) p) = sockets p.
Proof.
  unfold ws_onmessage, onTranscriptUpdate.
  destruct frame as [data|]; simpl; [|reflexivity].
  destruct (App.handleTranscriptUpdate data (host p)); reflexivity.
Qed.

(** No task reopens a socket the browser has closed. *)
Lemma closed_step (ws : nat) (e : event) (p : page) :
  ready ws p = Some CLOSED -> ready ws (step e p) = Some CLOSED.
Proof.
  intros H.
  assert (Hrs : forall k rs, k <> ws \/ rs = CLOSED ->
                 ready ws (set_readyState k rs p) = Some CLOSED).
  { intros k rs Hk. rewrite ready_set_readyState, H.
    case_decide; [|reflexivity]. destruct Hk as [Hk| ->]; [contradiction|reflexivity]. }
  destruct e as [|k|k frame|k|k|k|k|rec data|rec|i result]; simpl.
  - destruct (isConnecting (self p)); [exact H|].
    unfold handleToggleRecording. destruct (isRecording (self p)).
    + unfold ready. now rewrite stopRecording_sockets.
    + now apply (ready_new_socket ws
                   (with_host (App.handleConnectionStatusChange "connecting")
                      (setIsConnecting true p))).
  - destruct (ready k p) as [[]|] eqn:E; try exact H.
    assert (Hk : k <> ws) by (intros ->; congruence).
    unfold ws_onopen, resolve.
    destruct (caller_of k _) as [[]|]; simpl;
      try (change (ready ws (set_readyState k OPEN p) = Some CLOSED); now apply Hrs; left).
    change (ready ws (set_caller k AwaitUserMedia (set_readyState k OPEN p)) = Some CLOSED).
    rewrite ready_set_caller. apply Hrs. now left.
  - destruct (ready k p) as [[]|]; try exact H.
    unfold ready. now rewrite onmessage_sockets.
  - destruct (ready k p) as [[]|]; try exact H;
      unfold ws_onclose, ws_onerror, reject;
      (destruct (caller_of k _) as [[]|]; simpl;
       try (change (ready ws (set_readyState k CLOSED p) = Some CLOSED);
            now apply Hrs; right);
       change (ready ws (set_caller k (Settled Fulfilled) (set_readyState k CLOSED p))
               = Some CLOSED);
       rewrite ready_set_caller; apply Hrs; now right).
  - destruct (ready k p) as [[]|]; try exact H;
      (change (ready ws (set_readyState k CLOSED p) = Some CLOSED); apply Hrs; now right).
  - destruct (caller_of k p) as [[]|]; try exact H.
    change (ready ws (set_caller k (Settled Fulfilled) p) = Some CLOSED).
    now rewrite ready_set_caller.
  - destruct (caller_of k p) as [[]|]; try exact H.
    change (ready ws (set_caller k (Settled Fulfilled) p) = Some CLOSED).
    now rewrite ready_set_caller.
  - unfold recorder_ondataavailable.
    destruct (recorders p !! rec); [|exact H].
    destruct (0 <? size data)%nat; exact H.
  - exact H.
  - destruct (readers p !! i) as [k|]; [|exact H].
    unfold reader_onloadend. destruct result as [url|]; simpl; [|exact H].
    destruct (is_open k _); exact H.
Qed.

(** X1. Whatever happens after a socket has closed, the frames sent over it
    are those sent before: a chunk or a stop that found it closed is never
    sent later. *)
Lemma closed_socket_is_silent (ws : nat) (events : list event) :
  forall p : page,
    ready ws p = Some CLOSED -> sent_on ws (run events p) = sent_on ws p.
Proof.
  induction events as [|e events IH]; intros p H; [reflexivity|].
  simpl. rewrite (IH _ (closed_step ws e p H)).
  destruct (frames_sent_by e p) as (new & E & O).
  unfold sent_on. rewrite E, List.filter_app.
  replace (List.filter _ new) with (@nil (nat * json)); [apply app_nil_r|].
  clear E. induction O as [|[k frame] new Hk O IHO]; [reflexivity|].
  simpl in *. destruct (Nat.eqb_spec k ws) as [->|_]; [|exact IHO].
  unfold is_open in Hk. now rewrite H in Hk.
Qed.

(** * Further properties of the host *)

(** ** What an inbound frame can do *)

Lemma handle_effect (data : json) (s : App.state) :
  match App.handleTranscriptUpdate data s with
  | Normal s' =>
      App.connectionStatus s' = App.connectionStatus s
      /\ (App.isRecording s' = App.isRecording s \/ App.isRecording s' = false)
  | Throw _ => True
  end.
Proof.
  unfold App.handleTranscriptUpdate.
  destruct data as [| | | | |fields]; simpl; auto.
  repeat match goal with
         | |- context [strict_eq_str ?v ?lit] => destruct (strict_eq_str v lit)
         end; simpl; auto.
Qed.

Lemma onmessage_effect (frame : option json) (p : page) :
  exists h,
    ws_onmessage frame p = Normal (with_host (fun _ => h) p)
    /\ App.connectionStatus h = ConnectionStatus p
    /\ (App.isRecording h = RecordingState p \/ App.isRecording h = false).
Proof.
  unfold ws_onmessage, onTranscriptUpdate.
  destruct frame as [data|]; simpl.
  - pose proof (handle_effect data (host p)) as H.
    destruct (App.handleTranscriptUpdate data (host p)) as [h|e]; simpl.
    + exists h. split; [reflexivity|exact H].
    + exists (host p). rewrite page_eta. auto.
  - exists (host p). rewrite page_eta. auto.
Qed.

(** X12. The task that delivers a frame ([ws.onmessage] with its call of
    [handleTranscriptUpdate]), whatever the frame holds, can itself only
    change the transcripts, the report and the recording flag of the host:
    when the task ends the connection status, the component, the sockets,
    the recorders, the readers, the frames sent and the alerts are as they
    were, and the recording state of the host is as it was or has dropped
    to false; no frame turns it on. What the next render makes of the
    values stored is not part of the task. *)
Theorem inbound_frame_effect (ws : nat) (frame : option json) (p : page) :
  let p' := step (SocketMessage ws frame) p in
  ConnectionStatus p' = ConnectionStatus p
  /\ (RecordingState p' = RecordingState p \/ RecordingState p' = false)
  /\ self p' = self p /\ sockets p' = sockets p /\ recorders p' = recorders p
  /\ readers p' = readers p /\ sent p' = sent p /\ alerts p' = alerts p.
Proof.
  simpl. destruct (ready ws p) as [[]|]; try (repeat split; auto; fail).
  destruct (onmessage_effect frame p) as (h & E & Hc & Hr).
  rewrite E. simpl. repeat split; auto.
Qed.

(** ** A frame delivered twice *)

Lemma handle_twice (data : json) (s : App.state) :
  bind (App.handleTranscriptUpdate data s) (App.handleTranscriptUpdate data)
  = App.handleTranscriptUpdate data s.
Proof.
  unfold App.handleTranscriptUpdate.
  destruct data as [| | | | |fields]; simpl; auto.
  repeat match goal with
         | |- context [strict_eq_str ?v ?lit] => destruct (strict_eq_str v lit)
         end; reflexivity.
Qed.

(** X13. Delivering the same frame twice in a row leaves the page as one
    delivery does: every branch of [handleTranscriptUpdate] overwrites, none
    accumulates. *)
Theorem duplicate_frame_is_harmless (ws : nat) (frame : option json) (p : page) :
  step (SocketMessage ws frame) (step (SocketMessage ws frame) p)
  = step (SocketMessage ws frame) p.
Proof.
  simpl. destruct (ready ws p) as [[]|] eqn:R; rewrite ?R; try reflexivity.
  unfold ws_onmessage, onTranscriptUpdate.
  destruct frame as [data|]; simpl; [|now rewrite R].
  pose proof (handle_twice data (host p)) as H.
  destruct (App.handleTranscriptUpdate data (host p)) as [h|e] eqn:E; simpl.
  - change (ready ws (with_host (fun _ => h) p)) with (ready ws p). rewrite R.
    simpl in H. rewrite H. reflexivity.
  - rewrite R, E. reflexivity.
Qed.

(** * Further properties of the streamer *)

(** ** What [stopRecording] touches *)

Lemma stop_capture_cases (p : page) :
  stop_capture p = p
  \/ exists r, mediaRecorderRef (self p) = Some r
               /\ stop_capture p = set_rec_state r inactive p.
Proof.
  unfold stop_capture.
  destruct (mediaRecorderRef (self p)) as [r|]; [|now left].
  destruct (rec_state <$> recorders p !! r) as [[]|]; eauto.
Qed.

Lemma stopRecording_shape (p : page) :
  stopRecording p
  = onRecordingStateChange false
      (setIsRecording false
         (with_sent (fun frames => frames ++ stop_frame_now p) (stop_capture p))).
Proof.
  unfold stopRecording. now rewrite send_stop_eq, stop_capture_stop_frame_now.
Qed.

Lemma stopRecording_host (p : page) :
  host (stopRecording p) = App.setIsRecording false (host p).
Proof.
  rewrite stopRecording_shape.
  destruct (stop_capture_cases p) as [->|(r & _ & ->)]; reflexivity.
Qed.

Lemma stopRecording_self (p : page) :
  self (stopRecording p)
  = mk false (isConnecting (self p)) (audioChunksRef (self p))
      (websocketRef (self p)) (mediaRecorderRef (self p)).
Proof.
  rewrite stopRecording_shape.
  destruct (stop_capture_cases p) as [->|(r & _ & ->)]; reflexivity.
Qed.

Lemma stopRecording_recorders (p : page) :
  recorders (stopRecording p) = recorders (stop_capture p).
Proof. now rewrite stopRecording_shape. Qed.

Lemma stop_capture_length (p : page) :
  length (recorders (stop_capture p)) = length (recorders p).
Proof.
  destruct (stop_capture_cases p) as [->|(r & _ & ->)]; [reflexivity|].
  unfold set_rec_state. simpl. apply length_alter.
Qed.

(** ** Only the browser changes the state of a socket *)

Lemma ready_step_untouched (ws : nat) (rs : ready_state) (e : event) (p : page) :
  ready ws p = Some rs -> touches e ws = false -> ready ws (step e p) = Some rs.
Proof.
  intros H T.
  assert (Hrs : forall k st, k <> ws -> ready ws (set_readyState k st p) = Some rs).
  { intros k st Hk. rewrite ready_set_readyState, H. now case_decide. }
  destruct e as [|k|k frame|k|k|k|k|rec data|rec|i result]; simpl in *.
  - destruct (isConnecting (self p)); [exact H|].
    unfold handleToggleRecording. destruct (isRecording (self p)).
    + unfold ready. now rewrite stopRecording_sockets.
    + now apply (ready_new_socket ws
                   (with_host (App.handleConnectionStatusChange "connecting")
                      (setIsConnecting true p))).
  - apply Nat.eqb_neq in T.
    destruct (ready k p) as [[]|]; try exact H.
    unfold ws_onopen, resolve.
    destruct (caller_of k _) as [[]|]; simpl;
      try (change (ready ws (set_readyState k OPEN p) = Some rs); now apply Hrs).
    change (ready ws (set_caller k AwaitUserMedia (set_readyState k OPEN p)) = Some rs).
    rewrite ready_set_caller. now apply Hrs.
  - destruct (ready k p) as [[]|]; try exact H.
    unfold ready. now rewrite onmessage_sockets.
  - apply Nat.eqb_neq in T.
    destruct (ready k p) as [[]|]; try exact H;
      unfold ws_onclose, ws_onerror, reject;
      (destruct (caller_of k _) as [[]|]; simpl;
       try (change (ready ws (set_readyState k CLOSED p) = Some rs); now apply Hrs);
       change (ready ws (set_caller k (Settled Fulfilled) (set_readyState k CLOSED p))
               = Some rs);
       rewrite ready_set_caller; now apply Hrs).
  - apply Nat.eqb_neq in T.
    destruct (ready k p) as [[]|]; try exact H;
      (change (ready ws (set_readyState k CLOSED p) = Some rs); now apply Hrs).
  - destruct (caller_of k p) as [[]|]; try exact H.
    change (ready ws (set_caller k (Settled Fulfilled) p) = Some rs).
    now rewrite ready_set_caller.
  - destruct (caller_of k p) as [[]|]; try exact H.
    change (ready ws (set_caller k (Settled Fulfilled) p) = Some rs).
    now rewrite ready_set_caller.
  - unfold recorder_ondataavailable.
    destruct (recorders p !! rec); [|exact H].
    destruct (0 <? size data)%nat; exact H.
  - exact H.
  - destruct (readers p !! i) as [k|]; [|exact H].
    unfold reader_onloadend. destruct result as [url|]; simpl; [|exact H].
    destruct (is_open k _); exact H.
Qed.

Lemma ready_after_handlers (ws : nat) (st : ready_state) (p : page) :
  is_Some (ready ws p) ->
  ready ws (ws_onopen ws (set_readyState ws st p)) = Some st
  /\ ready ws (ws_onclose (ws_onerror ws (set_readyState ws st p))) = Some st
  /\ ready ws (ws_onclose (set_readyState ws st p)) = Some st.
Proof.
  intros [rs H].
  assert (E : ready ws (set_readyState ws st p) = Some st).
  { rewrite ready_set_readyState, H. now case_decide. }
  split; [|split].
  - unfold ws_onopen, resolve.
    destruct (caller_of ws _) as [[]|]; simpl; try exact E.
    change (ready ws (set_caller ws AwaitUserMedia (set_readyState ws st p)) = Some st).
    now rewrite ready_set_caller.
  - unfold ws_onclose, ws_onerror, reject.
    destruct (caller_of ws _) as [[]|]; simpl; try exact E.
    change (ready ws (set_caller ws (Settled Fulfilled) (set_readyState ws st p)) = Some st).
    now rewrite ready_set_caller.
  - exact E.
Qed.

(** X5. While the component is mounted, the state of a socket changes only
    in a task of the browser for that socket: a connecting socket opens, a
    socket that is not closed closes. No click, frame, microphone answer,
    chunk or reader changes the state of any socket, and no task gives a
    socket back a state it has left. *)
Theorem socket_lifecycle (ws : nat) (rs : ready_state) (e : event) (p : page) :
  ready ws p = Some rs ->
  ready ws (step e p) = Some rs
  \/ (e = SocketOpened ws /\ rs = CONNECTING /\ ready ws (step e p) = Some OPEN)
  \/ ((e = SocketFailed ws \/ e = SocketClosed ws)
      /\ rs <> CLOSED /\ ready ws (step e p) = Some CLOSED).
Proof.
  intros H.
  destruct (touches e ws) eqn:T; [|left; now apply ready_step_untouched].
  assert (S : is_Some (ready ws p)) by (rewrite H; eauto).
  destruct (ready_after_handlers ws OPEN p S) as (O & _ & _).
  destruct (ready_after_handlers ws CLOSED p S) as (_ & F & C).
  destruct e as [|k|k frame|k|k|k|k|rec data|rec|i result]; simpl in T;
    try discriminate T; apply Nat.eqb_eq in T; subst k; simpl; rewrite H.
  - destruct rs; auto; right; left; auto.
  - destruct rs; auto; right; right; (split; [auto|split; [discriminate|exact F]]).
  - destruct rs; auto; right; right; (split; [auto|split; [discriminate|exact C]]).
Qed.

Lemma socket_lifecycle_witness :
  ready 0 (step (DataAvailable 0 [x41]) recording_page) = Some OPEN
  \/ (DataAvailable 0 [x41] = SocketOpened 0 /\ OPEN = CONNECTING
      /\ ready 0 (step (DataAvailable 0 [x41]) recording_page) = Some OPEN)
  \/ ((DataAvailable 0 [x41] = SocketFailed 0 \/ DataAvailable 0 [x41] = SocketClosed 0)
      /\ OPEN <> CLOSED
      /\ ready 0 (step (DataAvailable 0 [x41]) recording_page) = Some CLOSED).
Proof.
  apply (socket_lifecycle 0 OPEN (DataAvailable 0 [x41]) recording_page). reflexivity.
Defined.

(** ** The flags of the component and of the host *)

Lemma connecting_step (e : event) (p : page) :
  connecting_agrees p -> connecting_agrees (step e p).
Proof.
  unfold connecting_agrees, ConnectionStatus. intros H.
  destruct e as [|k|k frame|k|k|k|k|rec data|rec|i result]; simpl.
  - destruct (isConnecting (self p)) eqn:C; [now rewrite C|].
    unfold handleToggleRecording. destruct (isRecording (self p)).
    + rewrite stopRecording_self, stopRecording_host. simpl. now rewrite C.
    + reflexivity.
  - destruct (ready k p) as [[]|]; try exact H.
    unfold ws_onopen, resolve. now destruct (caller_of k _) as [[]|].
  - destruct (ready k p) as [[]|]; try exact H.
    destruct (onmessage_effect frame p) as (h & E & Hc & _).
    rewrite E. simpl. now rewrite Hc.
  - destruct (ready k p) as [[]|]; try exact H;
      unfold ws_onclose, ws_onerror, reject; now destruct (caller_of k _) as [[]|].
  - now destruct (ready k p) as [[]|].
  - now destruct (caller_of k p) as [[]|].
  - now destruct (caller_of k p) as [[]|].
  - unfold recorder_ondataavailable.
    destruct (recorders p !! rec); [|exact H].
    now destruct (0 <? size data)%nat.
  - exact H.
  - destruct (readers p !! i) as [k|]; [|exact H].
    unfold reader_onloadend. destruct result as [url|]; simpl; [|exact H].
    now destruct (is_open k _).
Qed.

(** X2. Within one mount of the component, [isConnecting] and the
    connecting status of the host are set together: "isConnecting is true
    exactly when the status reported to the host is connecting" holds when
    the component is first mounted on a fresh host, and every sequence of
    tasks of the mounted component keeps it. (It is not kept across mounts:
    the back button does not reset the status of the host.) *)
Theorem connecting_flag_matches_status (events : list event) :
  connecting_agrees start_page
  /\ forall p, connecting_agrees p -> connecting_agrees (run events p).
Proof.
  split; [reflexivity|].
  induction events as [|e events IH]; intros p H; [exact H|].
  simpl. apply IH, connecting_step, H.
Qed.

Lemma connecting_flag_matches_status_witness :
  connecting_agrees (run [SocketOpened 0; StreamGranted 0] (step Click start_page)).
Proof.
  apply (proj2 (connecting_flag_matches_status [SocketOpened 0; StreamGranted 0])).
  reflexivity.
Defined.

Lemma recording_step (e : event) (p : page) :
  recording_agrees p -> recording_agrees (step e p).
Proof.
  unfold recording_agrees, RecordingState. intros (H1 & H2 & H3).
  destruct e as [|k|k frame|k|k|k|k|rec data|rec|i result]; simpl.
  - destruct (isConnecting (self p)); [auto|].
    unfold handleToggleRecording. destruct (isRecording (self p)) eqn:R.
    + rewrite stopRecording_self, stopRecording_host, stopRecording_recorders,
        stop_capture_length. simpl.
      repeat split; try discriminate. exact H3.
    + simpl. rewrite R. auto.
  - destruct (ready k p) as [[]|]; auto.
    unfold ws_onopen, resolve. destruct (caller_of k _) as [[]|]; simpl; auto.
  - destruct (ready k p) as [[]|]; auto.
    destruct (onmessage_effect frame p) as (h & E & _ & Hr).
    rewrite E. simpl. repeat split; auto.
    intros T. apply H1. unfold RecordingState in Hr.
    destruct Hr as [Hr|Hr]; congruence.
  - destruct (ready k p) as [[]|]; auto;
      unfold ws_onclose, ws_onerror, reject;
      destruct (caller_of k _) as [[]|]; simpl; auto.
  - destruct (ready k p) as [[]|]; simpl; auto.
  - destruct (caller_of k p) as [[]|]; auto.
    unfold startRecording_stream. simpl.
    repeat split; try discriminate.
    intros r [= <-]. rewrite length_alter, length_app. simpl. lia.
  - destruct (caller_of k p) as [[]|]; simpl; auto.
  - unfold recorder_ondataavailable.
    destruct (recorders p !! rec); auto.
    destruct (0 <? size data)%nat; simpl; auto.
  - simpl. rewrite !length_alter. auto.
  - destruct (readers p !! i) as [k|]; auto.
    unfold reader_onloadend. destruct result as [url|]; simpl; auto.
    destruct (is_open k _); simpl; auto.
Qed.

(** X3. Within one mount of the component, the recording flags are
    ordered: "the host shows a recording only while the component's own
    [isRecording] is true, the component records only with a recorder in
    [mediaRecorderRef], and that ref names a recorder that was created"
    holds when the component is first mounted on a fresh host, and every
    sequence of tasks of the mounted component keeps it. (It is not kept
    across mounts: the back button does not reset the flag of the host.) *)
Theorem recording_flags_agree (events : list event) :
  recording_agrees start_page
  /\ forall p, recording_agrees p -> recording_agrees (run events p).
Proof.
  split; [repeat split; try discriminate; intros r; discriminate|].
  induction events as [|e events IH]; intros p H; [exact H|].
  simpl. apply IH, recording_step, H.
Qed.

Lemma recording_flags_agree_witness :
  recording_agrees (run [SocketOpened 0; StreamGranted 0] (step Click start_page)).
Proof.
  apply (proj2 (recording_flags_agree [SocketOpened 0; StreamGranted 0])).
  repeat split; try discriminate; intros r; discriminate.
Defined.

(** ** The cleanup on unmount *)

Lemma ws_close_not_open (ws : nat) (p : page) : is_open ws (ws_close ws p) = false.
Proof.
  unfold ws_close, is_open.
  destruct (ready ws p) as [[]|] eqn:R; rewrite ?R; try reflexivity;
    rewrite ready_set_readyState, R; now case_decide.
Qed.

Lemma ws_close_twice (ws : nat) (p : page) : ws_close ws (ws_close ws p) = ws_close ws p.
Proof.
  unfold ws_close at 2 3.
  destruct (ready ws p) as [[]|] eqn:R;
    unfold ws_close; rewrite ?ready_set_readyState, ?R; try reflexivity;
    case_decide; try contradiction; reflexivity.
Qed.

(** X6. The cleanup that runs when the component unmounts leaves the
    recorder in [mediaRecorderRef] inactive and the socket in [websocketRef]
    not open, so that [stopRecording] could send nothing any more; it sends
    no frame itself (no stop frame reaches the backend), leaves the host and
    the cells of the component as they were, and running it twice is the
    same as running it once. *)
Theorem cleanup_releases (p : page) :
  capture_stopped (cleanup p) = true
  /\ stop_frame_now (cleanup p) = []
  /\ sent (cleanup p) = sent p
  /\ host (cleanup p) = host p
  /\ self (cleanup p) = self p
  /\ cleanup (cleanup p) = cleanup p.
Proof.
  unfold cleanup.
  set (q := match websocketRef (self p) with
            | Some ws => ws_close ws p
            | None => p
            end).
  assert (Hself : self q = self p).
  { subst q. destruct (websocketRef (self p)) as [ws|]; [|reflexivity].
    unfold ws_close. now destruct (ready ws p) as [[]|]. }
  assert (Hhost : host q = host p /\ sent q = sent p).
  { subst q. destruct (websocketRef (self p)) as [ws|]; [|auto].
    unfold ws_close. now destruct (ready ws p) as [[]|]. }
  assert (Hnow : stop_frame_now q = []).
  { unfold stop_frame_now. rewrite Hself. subst q.
    destruct (websocketRef (self p)) as [ws|]; [|reflexivity].
    now rewrite ws_close_not_open. }
  assert (Hq : match websocketRef (self q) with
               | Some ws => ws_close ws q
               | None => q
               end = q).
  { rewrite Hself. subst q. destruct (websocketRef (self p)) as [ws|]; [|reflexivity].
    apply ws_close_twice. }
  destruct Hhost as [Hhost Hsent].
  split; [apply stop_capture_stopped|].
  split; [now rewrite stop_capture_stop_frame_now|].
  destruct (stop_capture_cases q) as [E|(r & M & E)]; rewrite E.
  - repeat split; auto. rewrite Hq. now rewrite E.
  - repeat split; auto.
    assert (W : match websocketRef (self (set_rec_state r inactive q)) with
                | Some ws => ws_close ws (set_rec_state r inactive q)
                | None => set_rec_state r inactive q
                end = set_rec_state r inactive q).
    { change (websocketRef (self (set_rec_state r inactive q)))
        with (websocketRef (self q)).
      destruct (websocketRef (self q)) as [ws|]; [|reflexivity].
      unfold ws_close in *.
      change (ready ws (set_rec_state r inactive q)) with (ready ws q).
      destruct (ready ws q) as [[]|]; try reflexivity;
        change (set_readyState ws CLOSING (set_rec_state r inactive q))
          with (set_rec_state r inactive (set_readyState ws CLOSING q));
        now rewrite Hq. }
    rewrite W, <- E. apply stop_capture_again, stop_capture_stopped.
Qed.

(** ** Releasing the microphone *)

Lemma released_ext (r : nat) (p q : page) :
  recorders q = recorders p -> released r q = released r p.
Proof. unfold released. now intros ->. Qed.

Lemma released_alter (r k : nat) (f : MediaRecorder -> MediaRecorder) (p : page) :
  (k = r -> forall x, rec_state x = inactive -> tracks_live x = false ->
            rec_state (f x) = inactive /\ tracks_live (f x) = false) ->
  released r p = true ->
  released r (with_recorders (alter f k) p) = true.
Proof.
  unfold released. simpl. intros Hf H.
  rewrite list_lookup_alter. case_decide as Hk; [subst k|exact H].
  destruct (recorders p !! r) as [x|]; [|discriminate H]. simpl.
  destruct (rec_state x) eqn:S; try discriminate H.
  apply negb_true_iff in H.
  destruct (Hf eq_refl x S H) as [-> ->]. reflexivity.
Qed.

Lemma released_exists (r : nat) (p : page) :
  released r p = true -> r < length (recorders p).
Proof.
  unfold released. destruct (recorders p !! r) eqn:E; [|discriminate].
  intros _. eapply lookup_lt_Some, E.
Qed.

(** Nothing the component does restarts a recorder or its tracks. *)
Lemma released_step (r : nat) (e : event) (p : page) :
  released r p = true -> released r (step e p) = true.
Proof.
  intros H.
  destruct e as [|k|k frame|k|k|k|k|rec data|rec|i result]; simpl.
  - destruct (isConnecting (self p)); [exact H|].
    unfold handleToggleRecording. destruct (isRecording (self p)).
    + rewrite (released_ext r (stop_capture p)) by apply stopRecording_recorders.
      destruct (stop_capture_cases p) as [->|(m & _ & ->)]; [exact H|].
      apply released_alter; [|exact H]. intros _ x _ T. now split.
    + exact H.
  - destruct (ready k p) as [[]|]; try exact H.
    unfold ws_onopen, resolve. now destruct (caller_of k _) as [[]|].
  - destruct (ready k p) as [[]|]; try exact H.
    destruct (onmessage_effect frame p) as (h & E & _). now rewrite E.
  - destruct (ready k p) as [[]|]; try exact H;
      unfold ws_onclose, ws_onerror, reject; now destruct (caller_of k _) as [[]|].
  - now destruct (ready k p) as [[]|].
  - destruct (caller_of k p) as [[]|]; try exact H.
    unfold startRecording_stream.
    rewrite (released_ext r (set_rec_state (length (recorders p)) recording
                               (with_recorders
                                  (fun l => l ++ [mkMediaRecorder inactive k true]) p)))
      by reflexivity.
    apply released_alter.
    + intros K. apply released_exists in H. lia.
    + unfold released in *. simpl.
      destruct (recorders p !! r) as [x|] eqn:E; [|discriminate H].
      now rewrite (lookup_app_l_Some _ _ _ _ E).
  - now destruct (caller_of k p) as [[]|].
  - unfold recorder_ondataavailable.
    destruct (recorders p !! rec); [|exact H].
    now destruct (0 <? size data)%nat.
  - unfold recorder_onstop. apply released_alter; [now intros _ x S _|].
    apply released_alter; [|exact H]. intros _ x _ T. now split.
  - destruct (readers p !! i) as [k|]; [|exact H].
    unfold reader_onloadend. destruct result as [url|]; simpl; [|exact H].
    now destruct (is_open k _).
Qed.

(** X7. Once the [stop] event of a recorder has been handled (after
    [stopRecording] or the cleanup stopped it, or the browser ended it), the
    recorder is inactive and the tracks of its microphone stream are
    stopped, and they stay so whatever happens next: a later start creates
    a new recorder and never revives this one. *)
Theorem microphone_released_for_good (r : nat) (p : page) (events : list event) :
  r < length (recorders p) ->
  released r (run (RecorderStopped r :: events) p) = true.
Proof.
  intros L.
  assert (G : forall q, released r q = true -> released r (run events q) = true).
  { induction events as [|e events IH]; intros q H; [exact H|].
    simpl. apply IH, released_step, H. }
  cbn [run fold_left step]. apply G.
  unfold released, recorder_onstop, set_rec_state. simpl.
  rewrite !list_lookup_alter_eq.
  destruct (recorders p !! r) as [x|] eqn:E; [reflexivity|].
  apply lookup_ge_None in E. lia.
Qed.

Lemma microphone_released_for_good_witness :
  released 0 (run [RecorderStopped 0; Click; SocketOpened 1; StreamGranted 1]
                (stopRecording recording_page)) = true.
Proof.
  apply (microphone_released_for_good 0 (stopRecording recording_page)
           [Click; SocketOpened 1; StreamGranted 1]).
  simpl. lia.
Defined.

Lemma closed_socket_is_silent_witness :
  sent_on 0 (run [DataAvailable 0 [x41];
                  LoadEnd 0 (Some "data:audio/webm;codecs=opus;base64,QQ==");
                  Click]
               (step (SocketClosed 0) recording_page))
  = sent_on 0 (step (SocketClosed 0) recording_page).
Proof.
  apply (closed_socket_is_silent 0). reflexivity.
Defined.

Lemma base64_of_data_url_witness :
  base64_of (data_url "audio/webm;codecs=opus" "QQ==") = Some "QQ==".
Proof.
  apply (base64_of_data_url "audio/webm;codecs=opus" "QQ=="); reflexivity.
Defined.

(** ** Chunks and frames *)

Lemma audio_frames_map (ws : nat) (chunks : list (Blob * string)) :
  audio_frames ws chunks
  = map (fun c => (ws, audio_frame (base64_of (snd c))))
      (List.filter (fun c => (0 <? size (fst c))%nat) chunks).
Proof.
  induction chunks as [|[data url] rest IH]; [reflexivity|].
  simpl. rewrite IH. now destruct (0 <? size data)%nat.
Qed.

Lemma kept_map (chunks : list (Blob * string)) :
  kept chunks = map fst (List.filter (fun c => (0 <? size (fst c))%nat) chunks).
Proof.
  induction chunks as [|[data url] rest IH]; [reflexivity|].
  simpl. rewrite IH. now destruct (0 <? size data)%nat.
Qed.

(** X8. From any page on which a recorder feeds an open socket and no
    reader is pending, any number of chunks, each read before the next one
    arrives, makes the component send one audio frame per chunk that is not
    empty, in the order of the chunks and after the frames sent before; the
    same chunks are appended to [audioChunksRef], and no reader is left. *)
Theorem chunks_are_sent_in_order
    (recorder ws : nat) (chunks : list (Blob * string)) (p : page) :
  rec_ws <$> recorders p !! recorder = Some ws ->
  is_open ws p = true ->
  readers p = [] ->
  let p' := run (feed recorder chunks) p in
  let full := List.filter (fun c => (0 <? size (fst c))%nat) chunks in
  sent p' = sent p ++ map (fun c => (ws, audio_frame (base64_of (snd c)))) full
  /\ audioChunksRef (self p') = audioChunksRef (self p) ++ map fst full
  /\ readers p' = [].
Proof.
  intros R O Q p' full. subst p' full.
  rewrite (feed_sends recorder ws chunks p R O Q).
  rewrite <- audio_frames_map, <- kept_map.
  repeat split; try reflexivity. exact Q.
Qed.

Lemma chunks_are_sent_in_order_witness :
  let chunks := [([x41], "data:audio/webm;codecs=opus;base64,QQ==");
                 ([], "data:audio/webm;codecs=opus;base64,");
                 ([x42; x43], "data:audio/webm;codecs=opus;base64,QkM=")] in
  let p' := run (feed 0 chunks) recording_page in
  let full := List.filter (fun c => (0 <? size (fst c))%nat) chunks in
  sent p' = sent recording_page
            ++ map (fun c => (0, audio_frame (base64_of (snd c)))) full
  /\ audioChunksRef (self p') = audioChunksRef (self recording_page) ++ map fst full
  /\ readers p' = [].
Proof.
  intros chunks. apply (chunks_are_sent_in_order 0 0 chunks recording_page); reflexivity.
Defined.

(** ** The report that follows a stop *)

(** X10. [stopRecording] leaves the socket as it is, so an insight report
    that arrives afterwards on the still open socket reaches the host: the
    report is stored and the recording state is false. *)
Theorem report_after_stop_is_received (ws : nat) (data : json) (p : page) :
  is_open ws p = true ->
  kind data = Some (JStr "insight_report") ->
  let p' := step (SocketMessage ws (Some data)) (stopRecording p) in
  is_open ws (stopRecording p) = true
  /\ App.insightReport (host p') = field "report" data
  /\ RecordingState p' = false.
Proof.
  intros O K.
  assert (O' : is_open ws (stopRecording p) = true).
  { unfold is_open, ready in *. now rewrite stopRecording_sockets. }
  split; [exact O'|].
  simpl. unfold is_open in O'.
  destruct (ready ws (stopRecording p)) as [[]|]; try discriminate O'.
  rewrite (onmessage_insight_report data (stopRecording p) K). split; reflexivity.
Qed.

Lemma report_after_stop_is_received_witness :
  let data := JObj [("type", JStr "insight_report");
                    ("report", JObj [("clinical_summary", JStr "...")])] in
  let p' := step (SocketMessage 0 (Some data)) (stopRecording recording_page) in
  is_open 0 (stopRecording recording_page) = true
  /\ App.insightReport (host p') = field "report" data
  /\ RecordingState p' = false.
Proof.
  intros data. apply (report_after_stop_is_received 0 data recording_page); reflexivity.
Defined.

(** ** Base URLs *)

Lemma strip_after_slash (s : string) :
  strip_trailing_slash (s ++ "/")%string = s.
Proof.
  induction s as [|c s IH]; [reflexivity|].
  simpl. rewrite IH. now destruct s.
Qed.

Lemma strip_no_slash (s : string) :
  ends_with_slash s = false -> strip_trailing_slash s = s.
Proof.
  induction s as [|c s IH]; [reflexivity|].
  simpl. destruct s as [|d s]; [now intros ->|].
  intros H. now rewrite (IH H).
Qed.

(** X11. A base URL set with or without one trailing slash gives the same
    addresses: the socket of a session is opened at the base followed by
    [/ws/session/<id>/], and the base of the HTTP requests is the base
    itself, with exactly one slash at the join. *)
Theorem trailing_slash_is_dropped (base protocol host sessionId : string) :
  base <> EmptyString ->
  ends_with_slash base = false ->
  wsUrl (Some (base ++ "/")%string) protocol host sessionId
  = (base ++ "/ws/session/" ++ sessionId ++ "/")%string
  /\ wsUrl (Some base) protocol host sessionId
     = (base ++ "/ws/session/" ++ sessionId ++ "/")%string
  /\ API_BASE_URL (Some (base ++ "/")%string) = base
  /\ API_BASE_URL (Some base) = base.
Proof.
  intros N E.
  unfold wsUrl, wsOrigin, API_BASE_URL.
  destruct base as [|c rest]; [contradiction|].
  change (String c rest ++ "/")%string with (String c (rest ++ "/")%string).
  rewrite (strip_no_slash _ E).
  change (String c (rest ++ "/")%string) with (String c rest ++ "/")%string.
  rewrite strip_after_slash. repeat split; reflexivity.
Qed.

Lemma trailing_slash_is_dropped_witness :
  wsUrl (Some ("wss://api.aavaaz.test" ++ "/")%string) "https:" "localhost:3000" "7"
  = ("wss://api.aavaaz.test" ++ "/ws/session/" ++ "7" ++ "/")%string
  /\ wsUrl (Some "wss://api.aavaaz.test") "https:" "localhost:3000" "7"
     = ("wss://api.aavaaz.test" ++ "/ws/session/" ++ "7" ++ "/")%string
  /\ API_BASE_URL (Some ("wss://api.aavaaz.test" ++ "/")%string) = "wss://api.aavaaz.test"
  /\ API_BASE_URL (Some "wss://api.aavaaz.test") = "wss://api.aavaaz.test".
Proof.
  apply (trailing_slash_is_dropped "wss://api.aavaaz.test"); [discriminate|reflexivity].
Defined.

(** * Further properties of the forms *)

(** ** Leaving the session screen *)

(** X15. The back button, pressed on the session screen, blanks the
    transcripts and the report and, through the cleanup of the streamer,
    stops the recorder and closes the socket of [websocketRef] without
    sending a stop frame; the recording state and the connection status of
    the host are not reset by it and stay as they were. *)
Theorem leaving_keeps_recording_flag (p : page) :
  let p' := leave p in
  App.transcript (host p') = Some (JStr "")
  /\ App.partialTranscript (host p') = Some (JStr "")
  /\ App.insightReport (host p') = Some JNull
  /\ RecordingState p' = RecordingState p
  /\ ConnectionStatus p' = ConnectionStatus p
  /\ capture_stopped p' = true
  /\ stop_frame_now p' = []
  /\ sent p' = sent p.
Proof.
  unfold leave.
  set (q := with_host (App.setInsightReport (Some JNull))
              (with_host (App.setPartialTranscript (Some (JStr "")))
                 (with_host (App.setTranscript (Some (JStr ""))) p))).
  assert (W : forall ws, host (ws_close ws q) = host q /\ sent (ws_close ws q) = sent q).
  { intros ws. unfold ws_close. now destruct (ready ws q) as [[]|]. }
  assert (H : host (cleanup q) = host q /\ sent (cleanup q) = sent q).
  { unfold cleanup.
    destruct (websocketRef (self q)) as [ws|];
      [destruct (W ws) as [W1 W2]; rewrite <- W1, <- W2|];
      match goal with
      | |- context [stop_capture ?x] =>
          destruct (stop_capture_cases x) as [->|(r & _ & ->)]
      end; split; reflexivity. }
  destruct H as [Hh Hs]. simpl. unfold RecordingState, ConnectionStatus.
  rewrite Hh, Hs. repeat split; try reflexivity.
  - unfold cleanup. apply stop_capture_stopped.
  - unfold cleanup. rewrite stop_capture_stop_frame_now.
    unfold stop_frame_now.
    destruct (websocketRef (self q)) as [ws|] eqn:R; [|now rewrite R].
    assert (S : self (ws_close ws q) = self q).
    { unfold ws_close. now destruct (ready ws q) as [[]|]. }
    now rewrite S, R, ws_close_not_open.
Qed.

(** ** The patient form *)

Lemma assoc_put_eq (name : string) (v : json) (l : list (string * json)) :
  assoc name (PatientForm.put name v l) = Some v.
Proof.
  induction l as [|[k x] l IH]; simpl.
  - now rewrite String.eqb_refl.
  - destruct (String.eqb k name) eqn:E; simpl.
    + now rewrite String.eqb_refl.
    + now rewrite E.
Qed.

Lemma assoc_put_ne (name key : string) (v : json) (l : list (string * json)) :
  name <> key -> assoc key (PatientForm.put name v l) = assoc key l.
Proof.
  intros N. apply String.eqb_neq in N.
  induction l as [|[k x] l IH]; simpl.
  - now rewrite N.
  - destruct (String.eqb k name) eqn:E; simpl.
    + apply String.eqb_eq in E. subst k. now rewrite N.
    + now rewrite IH.
Qed.

(** X17. After any sequence of edits, each field of the form holds the
    value of the last edit made to it, and a field that was not edited
    holds what it held before: edits of different fields do not disturb
    each other. *)
Theorem last_edit_wins (edits : list (string * string)) (s : PatientForm.state)
    (name : string) :
  assoc name (PatientForm.formData (type_all edits s))
  = match last_edit name edits with
    | Some v => Some (JStr v)
    | None => assoc name (PatientForm.formData s)
    end.
Proof.
  revert s. induction edits as [|[k v] edits IH]; intros s; [reflexivity|].
  unfold type_all in *. simpl. rewrite IH.
  destruct (last_edit name edits) as [w|]; [reflexivity|].
  destruct (String.eqb_spec k name) as [->|N].
  - apply assoc_put_eq.
  - now apply assoc_put_ne.
Qed.

Lemma form_of_type_edits (edits : list (string * string)) (f : front) :
  form (type_edits edits f) = type_all edits (form f)
  /\ shell (type_edits edits f) = shell f
  /\ front_alerts (type_edits edits f) = front_alerts f
  /\ posted (type_edits edits f) = posted f.
Proof.
  revert f. induction edits as [|e edits IH]; intros f; [auto|].
  unfold type_edits, type_all in *. simpl.
  destruct (IH (type_in (fst e) (snd e) f)) as (-> & -> & -> & ->). auto.
Qed.

Lemma isSubmitting_type_all (edits : list (string * string)) (s : PatientForm.state) :
  PatientForm.isSubmitting (type_all edits s) = PatientForm.isSubmitting s.
Proof.
  revert s. induction edits as [|e edits IH]; intros s; [reflexivity|].
  unfold type_all in *. simpl. now rewrite IH.
Qed.

Lemma formData_type_all (edits : list (string * string)) (s : PatientForm.state) (b : bool) :
  PatientForm.formData (type_all edits (PatientForm.mk (PatientForm.formData s) b))
  = PatientForm.formData (type_all edits s).
Proof.
  revert s. induction edits as [|e edits IH]; intros s; [reflexivity|].
  unfold type_all in *. simpl.
  exact (IH (PatientForm.handleChange (fst e) (snd e) s)).
Qed.

(** X16. The form is submitted, the user goes on typing while the request
    is in flight, and the request settles. The body posted is the form as
    it was at the submit. When the request fails, the form keeps all that
    was typed, before and during the request, one alert is shown and the
    host is untouched; when it succeeds, the form is blanked, what was typed
    meanwhile included, the answer becomes the selected patient and is
    added after the patients the form knew. Either way [isSubmitting] is
    true during the request and false after it. *)
Theorem submit_outcomes (edits : list (string * string)) (seen : list value)
    (data : value) (f : front) :
  let f1 := type_edits edits (submit_patient f) in
  let failed := patient_settled seen NoResponse f1 in
  let done := patient_settled seen (Response data) f1 in
  posted f1 = posted f ++ [JObj (PatientForm.formData (form f))]
  /\ PatientForm.isSubmitting (form f1) = true
  /\ form failed = PatientForm.mk (PatientForm.formData (type_all edits (form f))) false
  /\ front_alerts failed = S (front_alerts f)
  /\ shell failed = shell f
  /\ form done = PatientForm.init
  /\ front_alerts done = front_alerts f
  /\ Shell.selectedPatient (shell done) = data
  /\ Shell.patients (shell done) = seen ++ [data].
Proof.
  destruct (form_of_type_edits edits (submit_patient f)) as (F & S & A & P).
  simpl. rewrite ?F, ?S, ?A, ?P.
  unfold submit_patient, PatientForm.handleSubmit. simpl.
  rewrite isSubmitting_type_all, formData_type_all.
  repeat split; reflexivity.
Qed.

(** ** Starting a session *)

(** X18. [handleStartSession] posts the id of the selected patient and sets
    [isCreating] until the request settles. A failed request shows one
    alert and leaves the host as it was. An answered request shows no
    alert, blanks the transcripts and the report and keeps the recording
    state and the connection status; the session screen appears only when
    the answer holds a truthy session, and with an empty answer the user
    stays on the session manager. *)
Theorem session_request_outcomes (fields : list (string * json)) (data : value)
    (f : front) :
  Shell.selectedPatient (shell f) = Some (JObj fields) ->
  let f1 := start_session f in
  let failed := session_settled NoResponse f1 in
  let done := session_settled (Response data) f1 in
  SessionManager.isCreating (manager f1) = true
  /\ posted f1 = posted f ++ [JObj match assoc "id" fields with
                                   | Some v => [("patient_id", v)]
                                   | None => []
                                   end]
  /\ shell failed = shell f
  /\ front_alerts failed = S (front_alerts f)
  /\ SessionManager.isCreating (manager failed) = false
  /\ SessionManager.isCreating (manager done) = false
  /\ front_alerts done = front_alerts f
  /\ Shell.view (shell done)
     = (if truthy data then Shell.SessionScreen else Shell.SessionManagerScreen)
  /\ Shell.shows_partial (shell done) = false
  /\ Shell.shows_transcript (shell done) = false
  /\ Shell.shows_report (shell done) = false
  /\ App.isRecording (Shell.session (shell done))
     = App.isRecording (Shell.session (shell f))
  /\ App.connectionStatus (Shell.session (shell done))
     = App.connectionStatus (Shell.session (shell f)).
Proof.
  intros H. unfold start_session. simpl. rewrite H. simpl.
  unfold Shell.view. simpl. rewrite H. simpl.
  repeat split; try reflexivity. now destruct (truthy data).
Qed.

Lemma session_request_outcomes_witness :
  let f := mkFront (Shell.setSelectedPatient
                      (Some (JObj [("id", JNum 3); ("name", JStr "A. Rao")])) Shell.init)
             PatientForm.init SessionManager.init 0 [] in
  posted (start_session f) = [JObj [("patient_id", JNum 3)]]
  /\ Shell.view (shell (session_settled (Response (Some (JStr ""))) (start_session f)))
     = Shell.SessionManagerScreen.
Proof.
  intros f.
  pose proof (session_request_outcomes
                [("id", JNum 3); ("name", JStr "A. Rao")] (Some (JStr "")) f eq_refl)
    as (_ & P & _ & _ & _ & _ & _ & V & _).
  split; [exact P|exact V].
Defined.
